(** * planb/aws.py: the request-throttling, session-refreshing boto client

    A shallow embedding of the two proxy classes of [planb/aws.py]
    ([SessionRefreshingBotoClient], [RequestThrottlingBotoClient]), of the
    backoff policy [get_retry_sleep_duration] and of the factory
    [boto_client], followed by the properties the specification states
    about them.

    Python exceptions keep the state reached when they are raised, so the
    wrappers are written in a state-and-exception monad whose failures
    carry the final state.  The two [while True] loops are fixpoints on a
    step budget; the totality lemmas below show that the budgets the
    wrappers pass are never exhausted. *)

From Stdlib Require Import String List ZArith QArith Qround Qpower Lia Bool Arith DecimalString.
Import ListNotations.
Close Scope Q_scope.
Local Open Scope string_scope.

(** ** botocore.exceptions.ClientError

    The failure a boto client raises.  [Code] and [Message] are
    [e.response['Error']['Code']] and [e.response['Error']['Message']];
    [str] is botocore's rendering of the exception, which the throttling
    proxy searches ([str(e)], line 67). *)

Record ClientError := {
  Code : string;
  Message : string;
  operation_name : string;
  retry_info : string
}.

Definition str (e : ClientError) : string :=
  "An error occurred (" ++ Code e ++ ") when calling the "
    ++ operation_name e ++ " operation" ++ retry_info e ++ ": " ++ Message e.

(** Python's [needle in haystack] on strings. *)
Fixpoint contains (needle haystack : string) : bool :=
  prefix needle haystack
  || match haystack with
     | EmptyString => false
     | String _ rest => contains needle rest
     end.

(** ** Exceptions and results *)

Inductive Exception :=
| Client (e : ClientError)
| NameError (name : string)
| AttributeError (name : string)
| TypeError
| RecursionError
| Other (what : string).

Inductive result (A : Type) :=
| Return (a : A)
| Raise (x : Exception).
Arguments Return {A} a.
Arguments Raise {A} x.

(** ** The backoff policy (lines 45-49) *)

Definition MAX_RETRIES : nat := 10.
Definition RETRY_SLEEP : Q := 0.5.

(** The number [2 ** retries * RETRY_SLEEP]. *)
Definition backoff_seconds (retries : nat) : Q :=
  (inject_Z (2 ^ Z.of_nat retries) * RETRY_SLEEP)%Q.

(** The largest power of two that is a float is [2 ** 1023]. *)
Definition float_max_exponent : nat := 1023.

Definition OverflowError : Exception :=
  Other "OverflowError: int too large to convert to float".

(** Lines 48-49, [2 ** retries * RETRY_SLEEP].  The power is an exact
    integer; the product with the float [RETRY_SLEEP] converts it to a
    float first, which raises OverflowError from [2 ** 1024] on.  Up to
    [2 ** 1023] the conversion and the product, a power of two, are
    exact. *)
Definition get_retry_sleep_duration (retries : nat) : result Q :=
  if (retries <=? float_max_exponent)%nat then Return (backoff_seconds retries)
  else Raise OverflowError.

(** ** What lies outside the module: boto3, the remote service, float
    formatting *)

Inductive ConnAttr (V : Type) :=
| Field (v : V)
| Operation.
Arguments Field {V} v.
Arguments Operation {V}.

Class Platform := {
  Value : Type;
  Args : Type;
  Conn : Type;
  Remote : Type;
  (** [boto3.session.Session(profile_name=p).client(service, region)] *)
  session_client :
    option string -> string -> option string -> Remote -> result Conn * Remote;
  (** the attributes of a boto client: absent, a plain value, or an operation *)
  conn_getattr : Conn -> string -> option (ConnAttr Value);
  (** one request to the remote service through a boto client *)
  conn_call : Conn -> string -> Args -> Remote -> result Value * Remote;
  (** [str(round(x, 1))] *)
  round1_str : Q -> string
}.

(** What the module does to the outside, in order. *)
Inductive Event `{Platform} :=
| Debug (msg : string)
| Info (msg : string)
| Sleep (seconds : Q)
| Session (profile_name : option string) (service_name : string)
          (region_name : option string)
| Call (c : Conn) (name : string) (args : Args).

(** ** State

    [globals] lists the names bound in the namespace of module
    [planb.aws]; the four underscored fields are the instance attributes
    of the [SessionRefreshingBotoClient] object ([_client] is unset until
    [_refresh_session] has assigned it). *)

Record World `{Platform} := {
  globals : list string;
  _profile_name : option string;
  _service_name : string;
  _region_name : option string;
  _client : option Conn;
  remote : Remote;
  log : list Event
}.

(** The names the module binds at import: lines 1-6 and every top-level
    [def], [class] and assignment. *)
Definition aws_globals : list string :=
  [ "logging"; "botocore"; "ClientError"; "boto3"; "logger";
    "SessionRefreshingBotoClient"; "MAX_RETRIES"; "RETRY_SLEEP";
    "get_retry_sleep_duration"; "RequestThrottlingBotoClient";
    "boto_client"; "list_instances"; "list_cluster_instances";
    "fetch_user_data"; "setup_sns_topics_for_alarm";
    "create_auto_recovery_alarm"; "get_instance_profile";
    "make_instance_profile_name"; "create_instance_profile";
    "ensure_instance_profile" ].

Section Monad.
Context `{Platform}.

Definition set_remote (w : World) (r : Remote) : World :=
  {| globals := globals w; _profile_name := _profile_name w;
     _service_name := _service_name w; _region_name := _region_name w;
     _client := _client w; remote := r; log := log w |}.

Definition set_client (w : World) (c : option Conn) : World :=
  {| globals := globals w; _profile_name := _profile_name w;
     _service_name := _service_name w; _region_name := _region_name w;
     _client := c; remote := remote w; log := log w |}.

Definition add_log (w : World) (ev : Event) : World :=
  {| globals := globals w; _profile_name := _profile_name w;
     _service_name := _service_name w; _region_name := _region_name w;
     _client := _client w; remote := remote w; log := log w ++ [ev] |}.

(** [None] is an exhausted step budget. *)
Definition M (A : Type) : Type := World -> option (result A * World).

Definition ret {A} (a : A) : M A := fun w => Some (Return a, w).

Definition raise {A} (x : Exception) : M A := fun w => Some (Raise x, w).

Definition bind {A B} (m : M A) (k : A -> M B) : M B :=
  fun w =>
    match m w with
    | None => None
    | Some (Return a, w') => k a w'
    | Some (Raise x, w') => Some (Raise x, w')
    end.

(** A value computed without the state, or the exception it raised. *)
Definition lift {A} (r : result A) : M A := fun w => Some (r, w).

Definition emit (ev : Event) : M unit :=
  fun w => Some (Return tt, add_log w ev).

Definition logger_debug (msg : string) : M unit := emit (Debug msg).
Definition logger_info (msg : string) : M unit := emit (Info msg).

(** A global name resolves when the module namespace binds it (no builtin
    is called [time]). *)
Definition bound (name : string) (w : World) : bool :=
  existsb (String.eqb name) (globals w).

(** [time.sleep(seconds)], line 74. *)
Definition time_sleep (seconds : Q) : M unit :=
  fun w =>
    if bound "time" w then emit (Sleep seconds) w
    else raise (NameError "time") w.

(** An attribute read off an object: a plain value or something callable. *)
Inductive attr :=
| Data (v : Value)
| Callable (f : Args -> M Value).

Definition callable (a : attr) : bool :=
  match a with
  | Data _ => false
  | Callable _ => true
  end.

(** Calling [a] with the arguments of the invocation. *)
Definition call (a : attr) (args : Args) : M Value :=
  match a with
  | Callable f => f args
  | Data _ => raise TypeError
  end.

(** An object, as far as the proxies use one: [getattr(o, name)]. *)
Record object := { getattr : string -> M attr }.

(** A bound operation of the boto client [c]. *)
Definition remote_call (c : Conn) (name : string) (args : Args) : M Value :=
  fun w =>
    let (r, rem) := conn_call c name args (remote w) in
    Some (r, set_remote (add_log w (Call c name args)) rem).

(** [getattr(c, name)] on a boto client. *)
Definition client_getattr (c : Conn) (name : string) : M attr :=
  match conn_getattr c name with
  | None => raise (AttributeError name)
  | Some (Field v) => ret (Data v)
  | Some Operation => ret (Callable (remote_call c name))
  end.

End Monad.

Declare Scope py_scope.
Delimit Scope py_scope with py.
Notation "x <- m ;; k" := (bind m (fun x => k))
  (at level 61, m at next level, right associativity) : py_scope.
Notation "m ;; k" := (bind m (fun _ => k))
  (at level 61, right associativity) : py_scope.
Local Open Scope py_scope.

(** ** SessionRefreshingBotoClient (lines 9-42) *)

Module SessionRefreshingBotoClient.
Section Methods.
Context `{Platform}.

(** Lines 17-20: a new session and a new client replace [self._client]. *)
Definition _refresh_session : M unit :=
  fun w =>
    let (r, rem) :=
      session_client (_profile_name w) (_service_name w) (_region_name w)
                     (remote w) in
    let w1 :=
      set_remote
        (add_log w (Session (_profile_name w) (_service_name w) (_region_name w)))
        rem in
    match r with
    | Return c => Some (Return tt, set_client w1 (Some c))
    | Raise x => Some (Raise x, w1)
    end.

(** Lines 11-15. *)
Definition __init__ (profile_name : option string) (service_name : string)
    (region_name : option string) : M unit :=
  fun w =>
    _refresh_session
      {| globals := globals w; _profile_name := profile_name;
         _service_name := service_name; _region_name := region_name;
         _client := None; remote := remote w; log := log w |}.

(** Reading [self._client].  While the attribute is unset the ordinary
    lookup fails and falls into [__getattr__], which reads [self._client]
    again: Python ends that regress with RecursionError. *)
Definition self_client : M Conn :=
  fun w =>
    match _client w with
    | Some c => ret c w
    | None => raise RecursionError w
    end.

(** The test of line 31. *)
Definition expired (e : ClientError) : bool := Code e =? "RequestExpired".

(** The [try] suite, lines 27-29: one forward to the current client. *)
Definition forward (name : string) (args : Args) : M Value :=
  logger_debug ("SessionRefreshingBotoClient: " ++ name) ;;
  c <- self_client ;;
  attr <- client_getattr c name ;;
  call attr args.

(** The [while True] loop of lines 25-37; [retried] is the local flag of
    line 24. *)
Fixpoint wrapper (name : string) (args : Args) (budget : nat) (retried : bool)
    : M Value :=
  match budget with
  | O => fun _ => None
  | S budget' =>
      fun w =>
        match forward name args w with
        | None => None
        | Some (Return v, w') => Some (Return v, w')
        | Some (Raise (Client e), w') =>
            if expired e then
              if negb retried then
                (logger_info "Refreshing boto client session..." ;;
                 _refresh_session ;;
                 wrapper name args budget' true) w'
              else Some (Raise (Client e), w')
            else Some (Raise (Client e), w')
        | Some (Raise x, w') => Some (Raise x, w')
        end
  end.

Definition _wrap_callable (name : string) : Args -> M Value :=
  fun args => wrapper name args 2 false.

(** Lines 40-42. *)
Definition __getattr__ (name : string) : M attr :=
  c <- self_client ;;
  attr <- client_getattr c name ;;
  ret (if callable attr then Callable (_wrap_callable name) else attr).

(** The proxy as the object the throttling proxy wraps.  Only names that
    reach [__getattr__] are forwarded; the proxy's own underscored
    attributes are not operations of the remote client. *)
Definition as_object : object := {| getattr := __getattr__ |}.

End Methods.
End SessionRefreshingBotoClient.

(** ** RequestThrottlingBotoClient (lines 52-82) *)

Module RequestThrottlingBotoClient.
Section Methods.
Context `{Platform}.

Record t := { _client : object }.

(** The test of lines 66-67. *)
Definition throttled (e : ClientError) : bool :=
  (Code e =? "Throttling") || contains "RequestLimitExceeded" (str e).

(** The [while True] loop of lines 62-77; [count] is the counter of
    line 61. *)
Fixpoint wrapper (attr : attr) (args : Args) (budget : nat) (count : nat)
    : M Value :=
  match budget with
  | O => fun _ => None
  | S budget' =>
      fun w =>
        match call attr args w with
        | None => None
        | Some (Return v, w') => Some (Return v, w')
        | Some (Raise (Client e), w') =>
            if throttled e then
              if (count <? MAX_RETRIES)%nat then
                (sleep_time <- lift (get_retry_sleep_duration count) ;;
                 let msg :=
                   "Throttling AWS API requests: "
                     ++ round1_str sleep_time ++ "s..." in
                 logger_info msg ;;
                 time_sleep sleep_time ;;
                 wrapper attr args budget' (count + 1)%nat) w'
              else Some (Raise (Client e), w')
            else Some (Raise (Client e), w')
        | Some (Raise x, w') => Some (Raise x, w')
        end
  end.

Definition _wrap_callable (self : t) (name : string) : Args -> M Value :=
  fun args =>
    logger_debug ("RequestThrottlingBotoClient: " ++ name) ;;
    attr <- getattr (_client self) name ;;
    wrapper attr args (S MAX_RETRIES) 0.

(** Lines 80-82. *)
Definition __getattr__ (self : t) (name : string) : M attr :=
  attr <- getattr (_client self) name ;;
  ret (if callable attr then Callable (_wrap_callable self name) else attr).

End Methods.
End RequestThrottlingBotoClient.

Section Factory.
Context `{Platform}.

(** Lines 85-91. *)
Definition boto_client (service_name : string)
    (region_name profile_name : option string)
    : M RequestThrottlingBotoClient.t :=
  SessionRefreshingBotoClient.__init__ profile_name service_name region_name ;;
  ret {| RequestThrottlingBotoClient._client :=
           SessionRefreshingBotoClient.as_object |}.

(** [handle.name(args)], the way the rest of the module uses a client
    (line 95, [ec2.describe_instances(...)]). *)
Definition invoke (handle : RequestThrottlingBotoClient.t) (name : string)
    (args : Args) : M Value :=
  attr <- RequestThrottlingBotoClient.__getattr__ handle name ;;
  call attr args.

(** The handle [boto_client] returns. *)
Definition composed : RequestThrottlingBotoClient.t :=
  {| RequestThrottlingBotoClient._client :=
       SessionRefreshingBotoClient.as_object |}.

(** Ordinary lookup comes before [__getattr__].  What it finds on the two
    proxies (their instance attributes [_client], [_profile_name],
    [_service_name], [_region_name], their methods [_refresh_session],
    [_wrap_callable], [__init__], [__getattr__], and what [object] gives
    every instance) begins with an underscore: any other name falls into
    [__getattr__] on both proxies. *)
Definition reaches_getattr (name : string) : bool := negb (prefix "_" name).

(** ** Reading the log *)

Definition is_sleep (ev : Event) : option Q :=
  match ev with
  | Sleep d => Some d
  | _ => None
  end.

(** The waits passed to [time.sleep], in order. *)
Fixpoint sleeps (evs : list Event) : list Q :=
  match evs with
  | [] => []
  | ev :: rest =>
      match is_sleep ev with
      | Some d => d :: sleeps rest
      | None => sleeps rest
      end
  end.

Definition total_wait (evs : list Event) : Q :=
  fold_right Qplus 0%Q (sleeps evs).

(** How many sessions were created ([_refresh_session] ran). *)
Fixpoint refreshes (evs : list Event) : nat :=
  match evs with
  | [] => 0
  | Session _ _ _ :: rest => S (refreshes rest)
  | _ :: rest => refreshes rest
  end.

(** How many requests went to the remote service. *)
Fixpoint attempts (evs : list Event) : nat :=
  match evs with
  | [] => 0
  | Call _ _ _ :: rest => S (attempts rest)
  | _ :: rest => attempts rest
  end.

End Factory.

(** The cumulative wait of the first [n] retries. *)
Fixpoint cumulative_wait (n : nat) : Q :=
  match n with
  | O => 0%Q
  | S m => (cumulative_wait m + backoff_seconds m)%Q
  end.

(** ** A scripted remote service

    A platform on which the wrappers run to a value: the remote service
    answers the successive requests with the outcomes of a script, and
    every new session gets the next client number. *)

Record Script := {
  pending : list (result string);
  sessions : nat
}.

(** One decimal place, as [str(round(x, 1))] prints the halves and the
    integers the backoff policy produces. *)
Definition show_seconds (q : Q) : string :=
  let tenths := Qfloor (q * 10 + 0.5)%Q in
  NilZero.string_of_int (Z.to_int (tenths / 10))
    ++ "." ++ NilZero.string_of_int (Z.to_int (tenths mod 10)).

Definition scripted : Platform := {|
  Value := string;
  Args := list string;
  Conn := nat;
  Remote := Script;
  session_client := fun _ _ _ r =>
    (Return (S (sessions r)),
     {| pending := pending r; sessions := S (sessions r) |});
  conn_getattr := fun _ name =>
    if name =? "meta" then Some (Field "ClientMeta")
    else if name =? "describe_instances" then Some Operation
    else None;
  conn_call := fun _ _ _ r =>
    match pending r with
    | [] => (Return "done", r)
    | outcome :: rest =>
        (outcome, {| pending := rest; sessions := sessions r |})
    end;
  round1_str := show_seconds
|}.

(** The state before [boto_client] runs, with the module namespace [g]. *)
Definition start (g : list string) (script : list (result string))
    : @World scripted :=
  @Build_World scripted g None "" None None
    {| pending := script; sessions := 0 |} [].

(** The state [boto_client('ec2', 'eu-central-1')] leaves when it starts
    from [start g script]: client number 1 is in place. *)
Definition ready (g : list string) (script : list (result string))
    : @World scripted :=
  @Build_World scripted g None "ec2" (Some "eu-central-1") (Some 1)
    {| pending := script; sessions := 1 |}
    [@Session scripted None "ec2" (Some "eu-central-1")].

Definition error (code message : string) : ClientError :=
  {| Code := code; Message := message;
     operation_name := "DescribeInstances"; retry_info := "" |}.

Definition failure (code message : string) : result string :=
  Raise (Client (error code message)).

Definition Throttling : result string := failure "Throttling" "Rate exceeded".
Definition RequestExpired : result string :=
  failure "RequestExpired" "Request has expired.".
Definition UnauthorizedOperation : result string :=
  failure "UnauthorizedOperation" "You are not authorized.".

Section Scenarios.
Context `{Platform}.

(** The remote service rejects the successive requests [name(args)] made
    through client [c] with the failures [es], each of the rate-limited
    kind and none of the expired kind, taking the service from state [r]
    to state [r']. *)
Fixpoint throttled_run (c : Conn) (name : string) (args : Args)
    (es : list ClientError) (r r' : Remote) : Prop :=
  match es with
  | [] => r = r'
  | e :: rest =>
      exists r1,
        conn_call c name args r = (Raise (Client e), r1)
        /\ RequestThrottlingBotoClient.throttled e = true
        /\ SessionRefreshingBotoClient.expired e = false
        /\ throttled_run c name args rest r1 r'
  end.

(** The state one forward of [name(args)] through client [c] leaves. *)
Definition after_forward (w : World) (c : Conn) (name : string) (args : Args)
    : World :=
  set_remote
    (add_log (add_log w (Debug ("SessionRefreshingBotoClient: " ++ name)))
             (Call c name args))
    (snd (conn_call c name args (remote w))).

(** The state a successful [_refresh_session] leaves: service state [r],
    new client [c]. *)
Definition after_refresh (w : World) (c : Conn) (r : Remote) : World :=
  set_client
    (set_remote
       (add_log w (Session (_profile_name w) (_service_name w) (_region_name w)))
       r)
    (Some c).

(** The log record and the pause that precede retry number [count]. *)
Definition throttle_info (count : nat) : Event :=
  Info ("Throttling AWS API requests: "
          ++ round1_str (backoff_seconds count) ++ "s...").

Definition after_backoff (w : World) (count : nat) : World :=
  add_log (add_log w (throttle_info count))
          (Sleep (backoff_seconds count)).

(** What was logged between state [w] and the later state [w']. *)
Definition since (w w' : World) : list Event :=
  skipn (length (log w)) (log w').

(** The two kinds of failure the proxies retry. *)
Definition is_expired (x : Exception) : bool :=
  match x with
  | Client e => SessionRefreshingBotoClient.expired e
  | _ => false
  end.

Definition is_throttled (x : Exception) : bool :=
  match x with
  | Client e => RequestThrottlingBotoClient.throttled e
  | _ => false
  end.

End Scenarios.

(** * The callers of the client (lines 94-237)

    The functions below the factory read the responses of the service,
    which are Python dictionaries, lists and strings. *)

#[warnings="-register-all"]
Inductive py :=
| PyNone
| PyBool (b : bool)
| PyInt (n : Z)
| PyStr (s : string)
| PyList (items : list py)
| PyDict (entries : list (string * py)).

(** The KeyError of a missing dictionary key. *)
Definition KeyError (key : string) : Exception := Other ("KeyError: " ++ key).

Fixpoint lookup (key : string) (d : list (string * py)) : option py :=
  match d with
  | [] => None
  | (k, v) :: rest => if k =? key then Some v else lookup key rest
  end.

(** [v[key]] with a string key: only a dictionary can answer. *)
Definition getitem (v : py) (key : string) : result py :=
  match v with
  | PyDict d =>
      match lookup key d with
      | Some x => Return x
      | None => Raise (KeyError key)
      end
  | _ => Raise TypeError
  end.

(** [d[key] = v]: an existing key keeps its place, a new one goes last. *)
Fixpoint dict_set (d : list (string * py)) (key : string) (v : py)
    : list (string * py) :=
  match d with
  | [] => [(key, v)]
  | (k, x) :: rest =>
      if k =? key then (k, v) :: rest else (k, x) :: dict_set rest key v
  end.

(** Python's truth value. *)
Definition truthy (v : py) : bool :=
  match v with
  | PyNone => false
  | PyBool b => b
  | PyInt n => negb (n =? 0)%Z
  | PyStr s => negb (s =? "")
  | PyList l => match l with [] => false | _ => true end
  | PyDict d => match d with [] => false | _ => true end
  end.

(** [for r in v]: the items of a list, the keys of a dictionary, the
    characters of a string. *)
Definition iterate (v : py) : result (list py) :=
  match v with
  | PyList l => Return l
  | PyDict d => Return (map (fun kv => PyStr (fst kv)) d)
  | PyStr s =>
      Return (map (fun a => PyStr (String a "")) (list_ascii_of_string s))
  | _ => Raise TypeError
  end.

(** A list comprehension whose body can raise: the first failure ends it. *)
Fixpoint comprehension (f : py -> result py) (xs : list py)
    : result (list py) :=
  match xs with
  | [] => Return []
  | x :: rest =>
      match f x with
      | Raise e => Raise e
      | Return y =>
          match comprehension f rest with
          | Raise e => Raise e
          | Return ys => Return (y :: ys)
          end
      end
  end.

(** [sum(xs, start)] from a list [start]: every summand has to be a list. *)
Fixpoint sum (xs : list py) (start : list py) : result (list py) :=
  match xs with
  | [] => Return start
  | PyList l :: rest => sum rest (start ++ l)
  | _ :: _ => Raise TypeError
  end.

Definition quoted (s : string) : string :=
  String (Ascii.ascii_of_nat 34) s ++ String (Ascii.ascii_of_nat 34) "".

Fixpoint unlines (ls : list string) : string :=
  match ls with
  | [] => ""
  | [l] => l
  | l :: rest => l ++ String (Ascii.ascii_of_nat 10) (unlines rest)
  end.

(** The trust policy of lines 185-194. *)
Definition AssumeRolePolicyDocument : string :=
  unlines [
    "{";
    "            " ++ quoted "Version" ++ ": " ++ quoted "2012-10-17" ++ ",";
    "            " ++ quoted "Statement" ++ ": [{";
    "                " ++ quoted "Action" ++ ": " ++ quoted "sts:AssumeRole" ++ ",";
    "                " ++ quoted "Effect" ++ ": " ++ quoted "Allow" ++ ",";
    "                " ++ quoted "Principal" ++ ": {";
    "                    " ++ quoted "Service" ++ ": " ++ quoted "ec2.amazonaws.com";
    "                }";
    "            }]";
    "        }" ].

(** The role policy of lines 197-211. *)
Definition policy_document : string :=
  unlines [
    "{";
    "        " ++ quoted "Version" ++ ": " ++ quoted "2012-10-17" ++ ",";
    "        " ++ quoted "Statement" ++ ": [";
    "            {";
    "                " ++ quoted "Effect" ++ ": " ++ quoted "Allow" ++ ",";
    "                " ++ quoted "Action" ++ ": [";
    "                    " ++ quoted "ec2:DescribeTags" ++ ",";
    "                    " ++ quoted "ec2:DeleteTags" ++ ",";
    "                    " ++ quoted "ec2:DescribeVolumes" ++ ",";
    "                    " ++ quoted "ec2:AttachVolume";
    "                ],";
    "                " ++ quoted "Resource" ++ ": " ++ quoted "*";
    "            }";
    "        ]";
    "    }" ].

(** boto3 and the services behind it, with responses as Python values and
    keyword arguments as the pairs of the call. *)
Class Aws := {
  AwsClient : Type;
  AwsState : Type;
  aws_client :
    option string -> string -> option string -> AwsState
    -> result AwsClient * AwsState;
  aws_getattr : AwsClient -> string -> option (ConnAttr py);
  aws_request :
    AwsClient -> string -> list (string * py) -> AwsState
    -> result py * AwsState;
  aws_round1_str : Q -> string
}.

#[global] Instance boto3 `{Aws} : Platform := {|
  Value := py;
  Args := list (string * py);
  Conn := AwsClient;
  Remote := AwsState;
  session_client := aws_client;
  conn_getattr := aws_getattr;
  conn_call := aws_request;
  round1_str := aws_round1_str
|}.

Section Callers.
Context `{Aws}.

(** [try: body / except ClientError as e: handler e]. *)
Definition try_except {A} (body : M A) (handler : ClientError -> M A) : M A :=
  fun w =>
    match body w with
    | Some (Raise (Client e), w') => handler e w'
    | other => other
    end.

(** Lines 94-96. *)
Definition list_instances (ec2 : RequestThrottlingBotoClient.t)
    (kwargs : list (string * py)) : M py :=
  resp <- invoke ec2 "describe_instances" kwargs ;;
  reservations <- lift (getitem resp "Reservations") ;;
  rs <- lift (iterate reservations) ;;
  lists <- lift (comprehension (fun r => getitem r "Instances") rs) ;;
  instances <- lift (sum lists []) ;;
  ret (PyList instances).

(** Lines 99-106. *)
Definition list_cluster_instances (ec2 : RequestThrottlingBotoClient.t)
    (cluster_name : string) : M py :=
  list_instances ec2
    [("Filters",
      PyList [PyDict [("Name", PyStr "tag:Name");
                      ("Values", PyList [PyStr cluster_name])]])].

(** Lines 109-114. *)
Definition fetch_user_data (ec2 : RequestThrottlingBotoClient.t)
    (instance_id : string) : M py :=
  resp <- invoke ec2 "describe_instance_attribute"
            [("InstanceId", PyStr instance_id);
             ("Attribute", PyStr "userData")] ;;
  user_data <- lift (getitem resp "UserData") ;;
  lift (getitem user_data "Value").

(** The [for region in regions] loop of lines 122-128; [result] is the
    dictionary of line 121. *)
Fixpoint sns_topics (regions : list string) (topic_name email : py)
    (result : list (string * py)) : M (list (string * py)) :=
  match regions with
  | [] => ret result
  | region :: rest =>
      sns <- boto_client "sns" (Some region) None ;;
      resp <- invoke sns "create_topic" [("Name", topic_name)] ;;
      topic_arn <- lift (getitem resp "TopicArn") ;;
      (if truthy email
       then (invoke sns "subscribe"
               [("TopicArn", topic_arn); ("Protocol", PyStr "email");
                ("Endpoint", email)] ;;
             ret tt)
       else ret tt) ;;
      sns_topics rest topic_name email (dict_set result region topic_arn)
  end.

(** Lines 117-129. *)
Definition setup_sns_topics_for_alarm (regions : list string)
    (topic_name email : py) : M py :=
  let topic_name :=
    if negb (truthy topic_name) then PyStr "planb-cassandra-system-event"
    else topic_name in
  result <- sns_topics regions topic_name email [] ;;
  ret (PyDict result).

(** Lines 132-155. *)
Definition create_auto_recovery_alarm (region cluster_name instance_id : string)
    (alarm_sns_topic_arn : py) : M py :=
  cw <- boto_client "cloudwatch" (Some region) (Some "planb_autorecovery") ;;
  let alarm_name := cluster_name ++ "-" ++ instance_id ++ "-auto-recover" in
  let alarm_actions := [PyStr ("arn:aws:automate:" ++ region ++ ":ec2:recover")] in
  let alarm_actions :=
    if truthy alarm_sns_topic_arn
    then (alarm_actions ++ [alarm_sns_topic_arn])%list
    else alarm_actions in
  invoke cw "put_metric_alarm"
    [("AlarmName", PyStr alarm_name);
     ("AlarmActions", PyList alarm_actions);
     ("MetricName", PyStr "StatusCheckFailed_System");
     ("Namespace", PyStr "AWS/EC2");
     ("Statistic", PyStr "Minimum");
     ("Dimensions",
      PyList [PyDict [("Name", PyStr "InstanceId");
                      ("Value", PyStr instance_id)]]);
     ("Period", PyInt 60);
     ("EvaluationPeriods", PyInt 2);
     ("Threshold", PyInt 0);
     ("ComparisonOperator", PyStr "GreaterThanThreshold")] ;;
  ret PyNone.

(** Lines 170-171. *)
Definition make_instance_profile_name (cluster_name : string) : string :=
  "profile-" ++ cluster_name.

(** Lines 158-167. *)
Definition get_instance_profile (cluster_name : string) : M py :=
  iam <- boto_client "iam" None None ;;
  try_except
    (let profile_name := make_instance_profile_name cluster_name in
     profile <- invoke iam "get_instance_profile"
                  [("InstanceProfileName", PyStr profile_name)] ;;
     lift (getitem profile "InstanceProfile"))
    (fun e =>
       if Code e =? "NoSuchEntity" then ret PyNone else raise (Client e)).

(** What lines 162-167 make of the answer to the request of line 162. *)
Definition profile_outcome (res : result py) : result py :=
  match res with
  | Return profile => getitem profile "InstanceProfile"
  | Raise (Client e) =>
      if Code e =? "NoSuchEntity" then Return PyNone else Raise (Client e)
  | Raise x => Raise x
  end.

(** Lines 174-230. *)
Definition create_instance_profile(cluster_name : string) : M py :=
  let profile_name := make_instance_profile_name cluster_name in
  let role_name := "role-" ++ cluster_name in
  let policy_name := "policy-" ++ cluster_name ++ "-datavolume" in
  iam <- boto_client "iam" None None ;;
  profile <- invoke iam "create_instance_profile"
               [("InstanceProfileName", PyStr profile_name)] ;;
  invoke iam "create_role"
    [("RoleName", PyStr role_name);
     ("AssumeRolePolicyDocument", PyStr AssumeRolePolicyDocument)] ;;
  invoke iam "put_role_policy"
    [("RoleName", PyStr role_name);
     ("PolicyName", PyStr policy_name);
     ("PolicyDocument", PyStr policy_document)] ;;
  invoke iam "add_role_to_instance_profile"
    [("InstanceProfileName", PyStr profile_name);
     ("RoleName", PyStr role_name)] ;;
  time_sleep 30 ;;
  lift (getitem profile "InstanceProfile").

(** Lines 233-237. *)
Definition ensure_instance_profile (cluster_name : string) : M py :=
  profile <- get_instance_profile cluster_name ;;
  match profile with
  | PyNone => create_instance_profile cluster_name
  | _ => ret profile
  end.

(** SNS serves [setup_sns_topics_for_alarm]: for the successive regions it
    opens a session, creates the topic under [topic_name] with the next of
    [arns] as its [TopicArn] and, when there is an address, accepts the
    subscription to that topic, taking the service from state [r] to
    state [r']. *)
Fixpoint sns_served (topic_name email : py) (regions : list string)
    (arns : list py) (r r' : AwsState) : Prop :=
  match regions, arns with
  | [], [] => r = r'
  | region :: regions', arn :: arns' =>
      exists c r1 resp r2,
        aws_client None "sns" (Some region) r = (Return c, r1)
        /\ aws_getattr c "create_topic" = Some Operation
        /\ aws_request c "create_topic" [("Name", topic_name)] r1
           = (Return resp, r2)
        /\ getitem resp "TopicArn" = Return arn
        /\ if truthy email
           then exists resp' r3,
                  aws_getattr c "subscribe" = Some Operation
                  /\ aws_request c "subscribe"
                       [("TopicArn", arn); ("Protocol", PyStr "email");
                        ("Endpoint", email)]
                       r2
                     = (Return resp', r3)
                  /\ sns_served topic_name email regions' arns' r3 r'
           else sns_served topic_name email regions' arns' r2 r'
  | _, _ => False
  end.

(** The requests lines 124-127 make for one region whose topic is [arn]. *)
Definition topic_requests (topic_name email arn : py)
    : list (string * list (string * py)) :=
  ("create_topic", [("Name", topic_name)])
    :: (if truthy email
        then [("subscribe",
               [("TopicArn", arn); ("Protocol", PyStr "email");
                ("Endpoint", email)])]
        else []).

(** The dictionary line 128 builds from [result]: every region gets its
    topic, in the order of the regions. *)
Definition topics_by_region (regions : list string) (arns : list py)
    (result : list (string * py)) : list (string * py) :=
  fold_left (fun d ra => dict_set d (fst ra) (snd ra)) (combine regions arns)
            result.

(** Nothing of the module namespace or of the identity of the session
    proxy differs between the two states. *)
Definition same_module `{Platform} (w w' : World) : Prop :=
  globals w' = globals w
  /\ _profile_name w' = _profile_name w
  /\ _service_name w' = _service_name w
  /\ _region_name w' = _region_name w.

End Callers.

(** The requests of a log, in order: operation and keyword arguments. *)
Fixpoint requests `{Platform} (evs : list Event) : list (string * Args) :=
  match evs with
  | [] => []
  | Call _ name args :: rest => (name, args) :: requests rest
  | _ :: rest => requests rest
  end.

(** The sessions of a log, in order: profile, service and region. *)
Fixpoint sessions_of `{Platform} (evs : list Event)
    : list (option string * string * option string) :=
  match evs with
  | [] => []
  | Session profile service region :: rest =>
      (profile, service, region) :: sessions_of rest
  | _ :: rest => sessions_of rest
  end.

(** ** A scripted AWS

    Every name is an operation; the requests are answered by the outcomes
    of a script, and past its end by the value [otherwise].  Creating a
    session raises the next of [logins] while there is one. *)

Record AwsScript := {
  answers : list (result py);
  otherwise : py;
  logins : list Exception;
  clients : nat
}.

Definition scripted_aws : Aws := {|
  AwsClient := nat;
  AwsState := AwsScript;
  aws_client := fun _ _ _ r =>
    match logins r with
    | [] =>
        (Return (S (clients r)),
         {| answers := answers r; otherwise := otherwise r; logins := [];
            clients := S (clients r) |})
    | x :: rest =>
        (Raise x,
         {| answers := answers r; otherwise := otherwise r; logins := rest;
            clients := clients r |})
    end;
  aws_getattr := fun _ _ => Some Operation;
  aws_request := fun _ _ _ r =>
    match answers r with
    | [] => (Return (otherwise r), r)
    | outcome :: rest =>
        (outcome,
         {| answers := rest; otherwise := otherwise r; logins := logins r;
            clients := clients r |})
    end;
  aws_round1_str := show_seconds
|}.

(** The state before any client exists, with the module namespace [g]. *)
Definition fresh (g : list string) (script : list (result py))
    : @World (@boto3 scripted_aws) :=
  @Build_World (@boto3 scripted_aws) g None "" None None
    {| answers := script; otherwise := PyDict []; logins := []; clients := 0 |}
    [].

(** The state in which client number 1 of [service] is in place. *)
Definition connected (g : list string) (service : string)
    (script : list (result py)) (failing : list Exception)
    : @World (@boto3 scripted_aws) :=
  @Build_World (@boto3 scripted_aws) g None service None (Some 1)
    {| answers := script; otherwise := PyDict []; logins := failing;
       clients := 1 |}
    [@Session (@boto3 scripted_aws) None service None].

(** The scripted service with [n] clients created, no failing session
    left and [script] still to answer. *)
Definition serving (script : list (result py)) (n : nat) : AwsScript :=
  {| answers := script; otherwise := PyDict []; logins := []; clients := n |}.

(** Two failures of IAM. *)
Definition NoSuchEntity : ClientError :=
  {| Code := "NoSuchEntity";
     Message := "Instance Profile profile-planb cannot be found.";
     operation_name := "GetInstanceProfile"; retry_info := "" |}.

Definition AccessDenied : ClientError :=
  {| Code := "AccessDenied";
     Message := "User is not authorized to perform: iam:GetInstanceProfile";
     operation_name := "GetInstanceProfile"; retry_info := "" |}.

(** * Properties *)

(** ** Substring search *)

Lemma prefix_app (n h : string) :
  prefix n h = true <-> exists post, h = n ++ post.
Proof.
  revert h; induction n as [|a n IH]; intros h.
  - destruct h; simpl; split; eauto.
  - destruct h as [|b h]; simpl.
    + split; [discriminate | intros [post E]; discriminate].
    + destruct (Ascii.ascii_dec a b) as [->|Hab].
      * rewrite IH. split; intros [post E].
        -- exists post. now rewrite E.
        -- exists post. now injection E.
      * split; [discriminate | intros [post E]; injection E; congruence].
Qed.

Lemma contains_spec (n h : string) :
  contains n h = true <-> exists pre post, h = pre ++ n ++ post.
Proof.
  induction h as [|a h IH]; cbn [contains].
  - rewrite orb_false_r, prefix_app. split.
    + intros [post E]. now exists "", post.
    + intros [pre [post E]]. destruct pre; [now exists post | discriminate].
  - rewrite orb_true_iff, prefix_app, IH. split.
    + intros [[post E] | [pre [post E]]].
      * now exists "", post.
      * exists (String a pre), post. simpl. now rewrite E.
    + intros [pre [post E]]. destruct pre as [|b pre]; simpl in E.
      * left. now exists post.
      * right. injection E as _ E. now exists pre, post.
Qed.

(** ** The backoff policy *)



Lemma cumulative_wait_closed (n : nat) :
  (cumulative_wait n == RETRY_SLEEP * (inject_Z (2 ^ Z.of_nat n) - 1))%Q.
Proof.
  induction n as [|n IH].
  - reflexivity.
  - cbn [cumulative_wait]. rewrite IH. unfold backoff_seconds.
    rewrite Nat2Z.inj_succ, Z.pow_succ_r by lia.
    rewrite inject_Z_mult. ring.
Qed.




(** ** Failure classification *)

Lemma append_assoc (a b c : string) : (a ++ b) ++ c = a ++ (b ++ c).
Proof. induction a as [|x a IH]; simpl; [reflexivity | now rewrite IH]. Qed.

Lemma contains_suffix (n pre h : string) :
  contains n h = true -> contains n (pre ++ h) = true.
Proof.
  rewrite !contains_spec. intros [p [q E]].
  exists (pre ++ p), q. now rewrite E, append_assoc.
Qed.

(** C6, as the specification words it, fails: a failure whose code is
    [RequestLimitExceeded] (the code EC2 throttles with) is retried by the
    throttling proxy although its code is not [Throttling] and its message
    does not contain the marker; the proxy finds the marker in the
    rendered exception, which includes the code. *)
Lemma rate_limit_marker_found_in_code :
  let e := {| Code := "RequestLimitExceeded";
              Message := "Request limit exceeded.";
              operation_name := "DescribeInstances";
              retry_info := "" |} in
  RequestThrottlingBotoClient.throttled e = true
  /\ (Code e =? "Throttling") = false
  /\ contains "RequestLimitExceeded" (Message e) = false.
Proof. repeat split. Qed.

(** C6, amended.  A failure is of the expired kind exactly when its code
    is [RequestExpired].  It is of the rate-limited kind exactly when its
    code is [Throttling] or the text [str e] of the exception (code,
    operation name and message together) contains [RequestLimitExceeded];
    a message containing the marker is one way for the text to do so. *)
Theorem failure_classification (e : ClientError) :
  (SessionRefreshingBotoClient.expired e = true <-> Code e = "RequestExpired")
  /\ (RequestThrottlingBotoClient.throttled e = true <->
      Code e = "Throttling"
      \/ exists pre post, str e = pre ++ "RequestLimitExceeded" ++ post)
  /\ ((exists pre post, Message e = pre ++ "RequestLimitExceeded" ++ post) ->
      RequestThrottlingBotoClient.throttled e = true).
Proof.
  unfold SessionRefreshingBotoClient.expired,
    RequestThrottlingBotoClient.throttled.
  split; [| split].
  - apply String.eqb_eq.
  - now rewrite orb_true_iff, String.eqb_eq, contains_spec.
  - intros Hm. apply contains_spec in Hm.
    rewrite orb_true_iff. right. unfold str.
    repeat (apply contains_suffix). exact Hm.
Qed.

(** ** Running the wrappers *)

Section Execution.
Context `{Platform}.

Implicit Types (w : World) (name : string) (args : Args) (c : Conn).

Lemma sleeps_app (evs1 evs2 : list Event) :
  sleeps (evs1 ++ evs2)%list = (sleeps evs1 ++ sleeps evs2)%list.
Proof.
  induction evs1 as [|ev evs1 IH]; simpl; [reflexivity |].
  destruct (is_sleep ev); simpl; now rewrite IH.
Qed.

Lemma refreshes_app (evs1 evs2 : list Event) :
  refreshes (evs1 ++ evs2)%list = (refreshes evs1 + refreshes evs2)%nat.
Proof.
  induction evs1 as [|ev evs1 IH]; simpl; [reflexivity |].
  destruct ev; simpl; now rewrite IH.
Qed.

Lemma attempts_app (evs1 evs2 : list Event) :
  attempts (evs1 ++ evs2)%list = (attempts evs1 + attempts evs2)%nat.
Proof.
  induction evs1 as [|ev evs1 IH]; simpl; [reflexivity |].
  destruct ev; simpl; now rewrite IH.
Qed.

(** *** The session-refreshing proxy *)

Lemma forward_run w c name args :
  _client w = Some c ->
  conn_getattr c name = Some Operation ->
  SessionRefreshingBotoClient.forward name args w
  = Some (fst (conn_call c name args (remote w)), after_forward w c name args).
Proof.
  intros Hc Hop.
  unfold SessionRefreshingBotoClient.forward, bind, logger_debug, emit,
    SessionRefreshingBotoClient.self_client, client_getattr, after_forward.
  simpl. rewrite Hc. unfold ret. rewrite Hop. simpl.
  unfold remote_call. simpl.
  now destruct (conn_call c name args (remote w)).
Qed.

Lemma refresh_run w c r :
  session_client (_profile_name w) (_service_name w) (_region_name w) (remote w)
  = (Return c, r) ->
  SessionRefreshingBotoClient._refresh_session w
  = Some (Return tt, after_refresh w c r).
Proof.
  intros Hs. unfold SessionRefreshingBotoClient._refresh_session.
  now rewrite Hs.
Qed.

(** A forward that does not fail with an expired session ends the loop,
    whatever the flag. *)
Lemma session_wrapper_done name args budget retried w res w' :
  SessionRefreshingBotoClient.forward name args w = Some (res, w') ->
  match res with Return _ => true | Raise x => negb (is_expired x) || retried end
  = true ->
  SessionRefreshingBotoClient.wrapper name args (S budget) retried w
  = Some (res, w').
Proof.
  intros Hf Hres. simpl. rewrite Hf.
  destruct res as [v | x]; [reflexivity |].
  destruct x as [e | | | | |]; try reflexivity.
  simpl in Hres. destruct (SessionRefreshingBotoClient.expired e); [| reflexivity].
  simpl in Hres. now rewrite Hres.
Qed.

(** The first expired failure refreshes the session and goes round again
    with the flag set. *)
Lemma session_wrapper_refresh name args budget w e w1 :
  SessionRefreshingBotoClient.forward name args w = Some (Raise (Client e), w1) ->
  SessionRefreshingBotoClient.expired e = true ->
  SessionRefreshingBotoClient.wrapper name args (S budget) false w
  = (logger_info "Refreshing boto client session..." ;;
     SessionRefreshingBotoClient._refresh_session ;;
     SessionRefreshingBotoClient.wrapper name args budget true) w1.
Proof.
  intros Hf He. simpl. now rewrite Hf, He.
Qed.

(** *** The throttling proxy *)

Lemma bound_add_log name w ev : bound name (add_log w ev) = bound name w.
Proof. reflexivity. Qed.

(** An attempt that does not fail with a rate limit ends the loop, and so
    does a rate-limited one once [count] has reached [MAX_RETRIES]. *)
Lemma throttle_wrapper_done (attr : attr) args budget count w res w' :
  call attr args w = Some (res, w') ->
  match res with
  | Return _ => true
  | Raise x => negb (is_throttled x) || (MAX_RETRIES <=? count)%nat
  end = true ->
  RequestThrottlingBotoClient.wrapper attr args (S budget) count w
  = Some (res, w').
Proof.
  intros Hc Hres. cbn [RequestThrottlingBotoClient.wrapper]. rewrite Hc.
  destruct res as [v | x]; [reflexivity |].
  destruct x as [e | | | | |]; try reflexivity.
  cbn [is_throttled] in Hres.
  destruct (RequestThrottlingBotoClient.throttled e); [| reflexivity].
  cbn [negb orb] in Hres. apply Nat.leb_le in Hres.
  destruct (Nat.ltb_spec count MAX_RETRIES); [lia | reflexivity].
Qed.

(** The retry loop calls the backoff policy below [MAX_RETRIES] only, where
    it has a value. *)
Lemma sleep_duration_defined (count : nat) :
  count < MAX_RETRIES ->
  get_retry_sleep_duration count = Return (backoff_seconds count).
Proof.
  intros Hlt. unfold get_retry_sleep_duration.
  destruct (Nat.leb_spec count float_max_exponent) as [_ | Hgt];
    [reflexivity |].
  unfold MAX_RETRIES, float_max_exponent in *. lia.
Qed.

Lemma backoff_step {A} (count : nat) (k : Q -> M A) w :
  count < MAX_RETRIES ->
  (sleep_time <- lift (get_retry_sleep_duration count) ;; k sleep_time) w
  = k (backoff_seconds count) w.
Proof.
  intros Hlt. unfold bind, lift. now rewrite (sleep_duration_defined count Hlt).
Qed.

(** A rate-limited attempt below the maximum, when [time] resolves: log,
    sleep, count, and round again. *)
Lemma throttle_wrapper_retry (attr : attr) args budget count w e w1 :
  call attr args w = Some (Raise (Client e), w1) ->
  RequestThrottlingBotoClient.throttled e = true ->
  count < MAX_RETRIES ->
  bound "time" w1 = true ->
  RequestThrottlingBotoClient.wrapper attr args (S budget) count w
  = RequestThrottlingBotoClient.wrapper attr args budget (count + 1)
      (after_backoff w1 count).
Proof.
  intros Hc He Hlt Ht. cbn [RequestThrottlingBotoClient.wrapper].
  rewrite Hc, He.
  rewrite (proj2 (Nat.ltb_lt _ _) Hlt).
  rewrite backoff_step by exact Hlt.
  unfold bind, logger_info, emit, time_sleep.
  rewrite bound_add_log, Ht. reflexivity.
Qed.

(** The same attempt when [time] does not resolve: the record is logged
    and line 74 raises NameError; nothing is retried. *)
Lemma throttle_wrapper_unbound (attr : attr) args budget count w e w1 :
  call attr args w = Some (Raise (Client e), w1) ->
  RequestThrottlingBotoClient.throttled e = true ->
  count < MAX_RETRIES ->
  bound "time" w1 = false ->
  RequestThrottlingBotoClient.wrapper attr args (S budget) count w
  = Some (Raise (NameError "time"), add_log w1 (throttle_info count)).
Proof.
  intros Hc He Hlt Ht. cbn [RequestThrottlingBotoClient.wrapper].
  rewrite Hc, He.
  rewrite (proj2 (Nat.ltb_lt _ _) Hlt).
  rewrite backoff_step by exact Hlt.
  unfold bind, logger_info, emit, time_sleep.
  rewrite bound_add_log, Ht. reflexivity.
Qed.

(** *** The composed handle *)

Lemma session_getattr_operation w c name :
  _client w = Some c ->
  conn_getattr c name = Some Operation ->
  SessionRefreshingBotoClient.__getattr__ name w
  = Some (Return (Callable (SessionRefreshingBotoClient._wrap_callable name)), w).
Proof.
  intros Hc Hop.
  unfold SessionRefreshingBotoClient.__getattr__, bind,
    SessionRefreshingBotoClient.self_client, client_getattr.
  rewrite Hc. unfold ret. now rewrite Hop.
Qed.

Lemma session_getattr_field w c name v :
  _client w = Some c ->
  conn_getattr c name = Some (Field v) ->
  SessionRefreshingBotoClient.__getattr__ name w = Some (Return (Data v), w).
Proof.
  intros Hc Hop.
  unfold SessionRefreshingBotoClient.__getattr__, bind,
    SessionRefreshingBotoClient.self_client, client_getattr.
  rewrite Hc. unfold ret. now rewrite Hop.
Qed.

(** Invoking an operation on the composed handle logs the entry into the
    throttling proxy and runs its loop around the session proxy's
    wrapper. *)
Lemma invoke_operation w c name args :
  _client w = Some c ->
  conn_getattr c name = Some Operation ->
  invoke composed name args w
  = RequestThrottlingBotoClient.wrapper
      (Callable (SessionRefreshingBotoClient._wrap_callable name)) args
      (S MAX_RETRIES) 0
      (add_log w (Debug ("RequestThrottlingBotoClient: " ++ name))).
Proof.
  intros Hc Hop.
  unfold invoke, RequestThrottlingBotoClient.__getattr__, bind.
  cbn [composed RequestThrottlingBotoClient._client getattr
       SessionRefreshingBotoClient.as_object].
  rewrite (session_getattr_operation w c name Hc Hop).
  cbn [callable ret call].
  unfold RequestThrottlingBotoClient._wrap_callable, bind, logger_debug, emit.
  cbn [composed RequestThrottlingBotoClient._client getattr
       SessionRefreshingBotoClient.as_object].
  rewrite (session_getattr_operation _ c name); [reflexivity | exact Hc | exact Hop].
Qed.

(** *** What an entry into each proxy adds to the log *)

Lemma forward_log name args w res w' :
  SessionRefreshingBotoClient.forward name args w = Some (res, w') ->
  exists evs,
    log w' = (log w ++ Debug ("SessionRefreshingBotoClient: " ++ name) :: evs)%list
    /\ refreshes evs = 0 /\ sleeps evs = [] /\ attempts evs <= 1.
Proof.
  unfold SessionRefreshingBotoClient.forward, bind, logger_debug, emit,
    SessionRefreshingBotoClient.self_client, client_getattr.
  cbn [add_log _client].
  destruct (_client w) as [c |]; cbn [ret raise].
  - destruct (conn_getattr c name) as [[v |] |]; cbn [ret raise call].
    + intros [= <- <-]. exists []. cbn. auto.
    + unfold remote_call. cbn [remote add_log].
      destruct (conn_call c name args (remote w)) as [o rem].
      intros [= <- <-]. exists [Call c name args]. cbn.
      rewrite <- app_assoc. auto.
    + intros [= <- <-]. exists []. cbn. auto.
  - intros [= <- <-]. exists []. cbn. auto.
Qed.

Lemma refresh_log w res w' :
  SessionRefreshingBotoClient._refresh_session w = Some (res, w') ->
  log w'
  = (log w ++ [Session (_profile_name w) (_service_name w) (_region_name w)])%list.
Proof.
  unfold SessionRefreshingBotoClient._refresh_session.
  destruct (session_client _ _ _ _) as [[c | x] rem]; now intros [= <- <-].
Qed.

(** One entry into the session proxy refreshes at most once, and not at
    all once the flag is set. *)
Lemma session_wrapper_log name args budget retried w res w' :
  SessionRefreshingBotoClient.wrapper name args budget retried w
  = Some (res, w') ->
  exists evs,
    log w' = (log w ++ Debug ("SessionRefreshingBotoClient: " ++ name) :: evs)%list
    /\ refreshes evs <= (if retried then 0 else 1)
    /\ sleeps evs = [].
Proof.
  revert retried w res w'.
  induction budget as [| budget IH]; intros retried w res w'; [discriminate |].
  cbn [SessionRefreshingBotoClient.wrapper].
  destruct (SessionRefreshingBotoClient.forward name args w) as [[o w1] |] eqn:Hf;
    [| discriminate].
  destruct (forward_log _ _ _ _ _ Hf) as [evs [Hlog [Hr [Hs _]]]].
  assert (Hstop : Some (o, w1) = Some (res, w') ->
    exists evs0,
      log w' = (log w ++ Debug ("SessionRefreshingBotoClient: " ++ name) :: evs0)%list
      /\ refreshes evs0 <= (if retried then 0 else 1) /\ sleeps evs0 = []).
  { intros [= <- <-]. exists evs. rewrite Hr. repeat split; auto; lia. }
  destruct o as [v | x]; [exact Hstop |].
  destruct x as [e | | | | |]; try exact Hstop.
  destruct (SessionRefreshingBotoClient.expired e); [| exact Hstop].
  destruct retried; cbn [negb]; [exact Hstop |].
  unfold bind, logger_info, emit.
  destruct (SessionRefreshingBotoClient._refresh_session (add_log w1 _))
    as [[[[] | x] w2] |] eqn:Hrf; [| | discriminate].
  - intros Hw. apply refresh_log in Hrf.
    destruct (IH _ _ _ _ Hw) as [evs2 [Hlog2 [Hr2 Hs2]]].
    exists (evs ++ Info "Refreshing boto client session..."
              :: Session (_profile_name w1) (_service_name w1) (_region_name w1)
              :: Debug ("SessionRefreshingBotoClient: " ++ name) :: evs2)%list.
    rewrite Hlog2, Hrf. cbn [add_log log _profile_name _service_name _region_name].
    rewrite Hlog, refreshes_app, sleeps_app, Hr, Hs. cbn.
    rewrite Hs2. split; [| split; [lia | reflexivity]].
    now rewrite <- !app_assoc.
  - intros [= <- <-]. apply refresh_log in Hrf.
    exists (evs ++ [Info "Refreshing boto client session...";
                    Session (_profile_name w1) (_service_name w1) (_region_name w1)])%list.
    rewrite Hrf. cbn [add_log log _profile_name _service_name _region_name].
    rewrite Hlog, refreshes_app, sleeps_app, Hr, Hs. cbn.
    split; [| split; [lia | reflexivity]].
    now rewrite <- !app_assoc.
Qed.

(** The loop of the session proxy never needs more than two rounds. *)
Lemma session_wrapper_total name args budget (retried : bool) w :
  (if retried then 0 else 1) < budget ->
  SessionRefreshingBotoClient.wrapper name args budget retried w <> None.
Proof.
  revert retried w.
  induction budget as [| budget IH]; intros retried w Hb; [destruct retried; lia |].
  cbn [SessionRefreshingBotoClient.wrapper].
  assert (Hfw : SessionRefreshingBotoClient.forward name args w <> None).
  { unfold SessionRefreshingBotoClient.forward, bind, logger_debug, emit,
      SessionRefreshingBotoClient.self_client, client_getattr.
    cbn [add_log _client].
    destruct (_client w) as [c |]; cbn [ret raise]; [| discriminate].
    destruct (conn_getattr c name) as [[v |] |]; cbn [ret raise call];
      try discriminate.
    unfold remote_call. now destruct (conn_call _ _ _ _). }
  destruct (SessionRefreshingBotoClient.forward name args w) as [[o w1] |];
    [| congruence].
  destruct o as [v | x]; [discriminate |].
  destruct x as [e | | | | |]; try discriminate.
  destruct (SessionRefreshingBotoClient.expired e); [| discriminate].
  destruct retried; cbn [negb]; [discriminate |].
  unfold bind, logger_info, emit.
  unfold SessionRefreshingBotoClient._refresh_session at 1.
  destruct (session_client _ _ _ _) as [[c | x] rem]; [| discriminate].
  apply IH. lia.
Qed.

(** The throttling loop never sleeps more than [MAX_RETRIES - count]
    times, around a callable that does not sleep itself. *)
Lemma throttle_wrapper_log (attr : attr) args budget count w res w' :
  (forall w0 res0 w1, call attr args w0 = Some (res0, w1) ->
     exists evs, log w1 = (log w0 ++ evs)%list /\ sleeps evs = []) ->
  RequestThrottlingBotoClient.wrapper attr args budget count w = Some (res, w') ->
  exists evs,
    log w' = (log w ++ evs)%list
    /\ length (sleeps evs) <= MAX_RETRIES - count.
Proof.
  intros Hattr. revert count w res w'.
  induction budget as [| budget IH]; intros count w res w'; [discriminate |].
  cbn [RequestThrottlingBotoClient.wrapper].
  destruct (call attr args w) as [[o w1] |] eqn:Hc; [| discriminate].
  destruct (Hattr _ _ _ Hc) as [evs [Hlog Hs]].
  assert (Hstop : Some (o, w1) = Some (res, w') ->
    exists evs0, log w' = (log w ++ evs0)%list
                 /\ length (sleeps evs0) <= MAX_RETRIES - count).
  { intros [= <- <-]. exists evs. rewrite Hs. split; [exact Hlog | cbn [length]; lia]. }
  destruct o as [v | x]; [exact Hstop |].
  destruct x as [e | | | | |]; try exact Hstop.
  destruct (RequestThrottlingBotoClient.throttled e); [| exact Hstop].
  destruct (Nat.ltb_spec count MAX_RETRIES) as [Hlt | Hge]; [| exact Hstop].
  rewrite backoff_step by exact Hlt.
  unfold bind, logger_info, emit, time_sleep.
  rewrite bound_add_log.
  destruct (bound "time" w1); cbn [emit raise].
  - unfold emit. intros Hw.
    destruct (IH _ _ _ _ Hw) as [evs2 [Hlog2 Hs2]].
    exists (evs ++ throttle_info count
              :: Sleep (backoff_seconds count) :: evs2)%list.
    rewrite Hlog2. cbn [add_log log]. rewrite Hlog, sleeps_app, Hs.
    split; [now rewrite <- !app_assoc |].
    unfold throttle_info. cbn [sleeps is_sleep length app]. lia.
  - intros [= <- <-]. exists (evs ++ [throttle_info count])%list.
    cbn [add_log log]. rewrite Hlog, sleeps_app, Hs.
    split; [now rewrite <- !app_assoc |].
    unfold throttle_info. cbn [sleeps is_sleep length app]. lia.
Qed.

(** The budget [S MAX_RETRIES] the throttling wrapper passes is enough. *)
Lemma throttle_wrapper_total (attr : attr) args budget count w :
  (forall w0, call attr args w0 <> None) ->
  MAX_RETRIES - count < budget ->
  RequestThrottlingBotoClient.wrapper attr args budget count w <> None.
Proof.
  intros Hattr. revert count w.
  induction budget as [| budget IH]; intros count w Hb; [lia |].
  cbn [RequestThrottlingBotoClient.wrapper].
  specialize (Hattr w) as Hw.
  destruct (call attr args w) as [[o w1] |]; [| congruence].
  destruct o as [v | x]; [discriminate |].
  destruct x as [e | | | | |]; try discriminate.
  destruct (RequestThrottlingBotoClient.throttled e); [| discriminate].
  destruct (Nat.ltb_spec count MAX_RETRIES) as [Hlt | Hge]; [| discriminate].
  rewrite backoff_step by exact Hlt.
  unfold bind, logger_info, emit, time_sleep.
  rewrite bound_add_log.
  destruct (bound "time" w1); cbn [emit raise]; [| discriminate].
  apply IH. lia.
Qed.

(** Every invocation through the composed handle comes back: with a
    value or with an exception, never with an exhausted budget. *)
Lemma invoke_total name args w : invoke composed name args w <> None.
Proof.
  unfold invoke, RequestThrottlingBotoClient.__getattr__, bind.
  cbn [composed RequestThrottlingBotoClient._client getattr
       SessionRefreshingBotoClient.as_object].
  unfold SessionRefreshingBotoClient.__getattr__, bind,
    SessionRefreshingBotoClient.self_client, client_getattr.
  destruct (_client w) as [c |] eqn:Hc; cbn [ret raise]; [| discriminate].
  destruct (conn_getattr c name) as [[v |] |] eqn:Hop;
    cbn [ret raise callable call]; try discriminate.
  unfold RequestThrottlingBotoClient._wrap_callable, bind, logger_debug, emit.
  cbn [composed RequestThrottlingBotoClient._client getattr
       SessionRefreshingBotoClient.as_object].
  rewrite (session_getattr_operation _ c name); [| exact Hc | exact Hop].
  apply throttle_wrapper_total; [| lia].
  intros w0. cbn [call]. unfold SessionRefreshingBotoClient._wrap_callable.
  apply session_wrapper_total. lia.
Qed.

(** *** One entry, one forward *)

(** When the forward does not fail with an expired session, the session
    proxy hands its outcome on after that single forward. *)
Lemma session_call_once w c name args res r :
  _client w = Some c ->
  conn_getattr c name = Some Operation ->
  conn_call c name args (remote w) = (res, r) ->
  match res with Return _ => true | Raise x => negb (is_expired x) end = true ->
  SessionRefreshingBotoClient._wrap_callable name args w
  = Some (res, after_forward w c name args).
Proof.
  intros Hc Hop Hcall Hres.
  unfold SessionRefreshingBotoClient._wrap_callable.
  apply session_wrapper_done.
  - rewrite (forward_run w c name args Hc Hop). now rewrite Hcall.
  - destruct res as [v | x]; [reflexivity |]. now rewrite Hres.
Qed.

(** When it is not a rate-limit failure either, the composed handle hands
    it on too. *)
Lemma invoke_once w c name args res r :
  _client w = Some c ->
  conn_getattr c name = Some Operation ->
  conn_call c name args (remote w) = (res, r) ->
  match res with
  | Return _ => true
  | Raise x => negb (is_expired x) && negb (is_throttled x)
  end = true ->
  invoke composed name args w
  = Some (res,
          after_forward
            (add_log w (Debug ("RequestThrottlingBotoClient: " ++ name)))
            c name args).
Proof.
  intros Hc Hop Hcall Hres.
  rewrite (invoke_operation w c name args Hc Hop).
  apply throttle_wrapper_done.
  - cbn [call]. apply session_call_once with (r := r); try assumption.
    destruct res as [v | x]; [reflexivity |].
    now apply andb_true_iff in Hres.
  - destruct res as [v | x]; [reflexivity |].
    apply andb_true_iff in Hres. destruct Hres as [_ Hres].
    now rewrite Hres.
Qed.

Lemma after_forward_log w c name args :
  log (after_forward
         (add_log w (Debug ("RequestThrottlingBotoClient: " ++ name)))
         c name args)
  = (log w ++ [Debug ("RequestThrottlingBotoClient: " ++ name);
               Debug ("SessionRefreshingBotoClient: " ++ name);
               Call c name args])%list.
Proof. cbn. now rewrite <- !app_assoc. Qed.

(** *** The factory *)

Lemma boto_client_run service region profile w0 c r :
  session_client profile service region (remote w0) = (Return c, r) ->
  boto_client service region profile w0
  = Some (Return composed,
          {| globals := globals w0; _profile_name := profile;
             _service_name := service; _region_name := region;
             _client := Some c; remote := r;
             log := log w0 ++ [Session profile service region] |}).
Proof.
  intros Hs.
  unfold boto_client, bind, SessionRefreshingBotoClient.__init__,
    SessionRefreshingBotoClient._refresh_session.
  cbn [_profile_name _service_name _region_name remote].
  now rewrite Hs.
Qed.

Lemma boto_client_handle service region profile w0 h w1 :
  boto_client service region profile w0 = Some (Return h, w1) ->
  h = composed /\ exists c, _client w1 = Some c.
Proof.
  unfold boto_client, bind, SessionRefreshingBotoClient.__init__,
    SessionRefreshingBotoClient._refresh_session.
  cbn [_profile_name _service_name _region_name remote].
  destruct (session_client profile service region (remote w0)) as [[c | x] r];
    [| discriminate].
  cbn [ret]. intros [= <- <-]. split; [reflexivity | now exists c].
Qed.

(** The first thing the throttling loop does is enter the callable it
    wraps. *)
Lemma throttle_wrapper_enters (attr : attr) args budget count w res w'
    (first : Event) :
  (forall w0 res0 w1, call attr args w0 = Some (res0, w1) ->
     exists evs, log w1 = (log w0 ++ first :: evs)%list
                 /\ sleeps (first :: evs) = []) ->
  RequestThrottlingBotoClient.wrapper attr args budget count w = Some (res, w') ->
  exists evs, log w' = (log w ++ first :: evs)%list.
Proof.
  intros Hattr.
  assert (Hweak : forall w0 res0 w1, call attr args w0 = Some (res0, w1) ->
            exists evs, log w1 = (log w0 ++ evs)%list /\ sleeps evs = []).
  { intros w0 res0 w1 Hc. destruct (Hattr _ _ _ Hc) as [evs [Hl Hs]].
    now exists (first :: evs). }
  destruct budget as [| budget]; [discriminate |].
  cbn [RequestThrottlingBotoClient.wrapper].
  destruct (call attr args w) as [[o w1] |] eqn:Hc; [| discriminate].
  destruct (Hattr _ _ _ Hc) as [evs [Hlog _]].
  assert (Hstop : Some (o, w1) = Some (res, w') ->
            exists evs0, log w' = (log w ++ first :: evs0)%list).
  { intros [= <- <-]. now exists evs. }
  destruct o as [v | x]; [exact Hstop |].
  destruct x as [e | | | | |]; try exact Hstop.
  destruct (RequestThrottlingBotoClient.throttled e); [| exact Hstop].
  destruct (Nat.ltb_spec count MAX_RETRIES) as [Hlt | Hge]; [| exact Hstop].
  rewrite backoff_step by exact Hlt.
  unfold bind, logger_info, emit, time_sleep.
  rewrite bound_add_log.
  destruct (bound "time" w1); cbn [emit raise].
  - unfold emit. intros Hw.
    destruct (throttle_wrapper_log _ _ _ _ _ _ _ Hweak Hw) as [evs2 [Hlog2 _]].
    exists (evs ++ throttle_info count
              :: Sleep (backoff_seconds count) :: evs2)%list.
    rewrite Hlog2. cbn [add_log log]. rewrite Hlog.
    rewrite <- !app_assoc. reflexivity.
  - intros [= <- <-]. exists (evs ++ [throttle_info count])%list.
    cbn [add_log log]. rewrite Hlog. rewrite <- !app_assoc. reflexivity.
Qed.

End Execution.

(** * The claims of the specification *)

Section Claims.
Context `{Platform}.

Implicit Types (w : World) (name : string) (args : Args) (c : Conn).

(** C5.  When the first forward to the remote client succeeds, the handle
    built by [boto_client] returns the very result (and leaves the remote
    service in the very state) the undecorated client would, after one
    request, with no wait, no refresh and no retry. *)
Theorem first_attempt_success service region profile w0 h w1 w c name args v r :
  boto_client service region profile w0 = Some (Return h, w1) ->
  _client w = Some c ->
  conn_getattr c name = Some Operation ->
  conn_call c name args (remote w) = (Return v, r) ->
  exists w' evs,
    invoke h name args w = Some (Return v, w')
    /\ (exists wu, remote_call c name args w = Some (Return v, wu)
                   /\ remote wu = remote w')
    /\ remote w' = r
    /\ _client w' = Some c
    /\ log w' = (log w ++ evs)%list
    /\ evs = [Debug ("RequestThrottlingBotoClient: " ++ name);
              Debug ("SessionRefreshingBotoClient: " ++ name);
              Call c name args]
    /\ sleeps evs = [] /\ total_wait evs = 0%Q
    /\ refreshes evs = 0 /\ attempts evs = 1.
Proof.
  intros Hb Hc Hop Hcall.
  destruct (boto_client_handle _ _ _ _ _ _ Hb) as [-> _].
  eexists. eexists. split.
  { apply invoke_once with (r := r); [exact Hc | exact Hop | exact Hcall |].
    reflexivity. }
  split.
  { unfold remote_call. rewrite Hcall. eexists. split; [reflexivity |].
    cbn. now rewrite Hcall. }
  split; [cbn; now rewrite Hcall |].
  split; [exact Hc |].
  split; [apply after_forward_log |].
  repeat split.
Qed.

(** C7.  A failure that is neither of the expired kind nor of the
    rate-limited kind leaves the composed handle unchanged after the first
    attempt: one request, no wait, no refresh. *)
Theorem unmatched_failure_propagates w c name args x r :
  _client w = Some c ->
  conn_getattr c name = Some Operation ->
  conn_call c name args (remote w) = (Raise x, r) ->
  is_expired x = false ->
  is_throttled x = false ->
  exists w' evs,
    invoke composed name args w = Some (Raise x, w')
    /\ remote w' = r
    /\ _client w' = Some c
    /\ log w' = (log w ++ evs)%list
    /\ evs = [Debug ("RequestThrottlingBotoClient: " ++ name);
              Debug ("SessionRefreshingBotoClient: " ++ name);
              Call c name args]
    /\ attempts evs = 1
    /\ sleeps evs = [] /\ total_wait evs = 0%Q
    /\ refreshes evs = 0.
Proof.
  intros Hc Hop Hcall Hx Ht.
  eexists. eexists. split.
  { apply invoke_once with (r := r); [exact Hc | exact Hop | exact Hcall |].
    now rewrite Hx, Ht. }
  split; [cbn; now rewrite Hcall |].
  split; [exact Hc |].
  split; [apply after_forward_log |].
  repeat split.
Qed.

(** C10.  A name that resolves to a plain value on the wrapped client is
    answered with that value by both proxies, unwrapped and without any
    effect: nothing is logged, requested, refreshed or waited for. *)
Theorem data_attribute_unwrapped w c name v :
  _client w = Some c ->
  conn_getattr c name = Some (Field v) ->
  SessionRefreshingBotoClient.__getattr__ name w = Some (Return (Data v), w)
  /\ RequestThrottlingBotoClient.__getattr__ composed name w
     = Some (Return (Data v), w)
  /\ forall (self : RequestThrottlingBotoClient.t) w0 w1 v0,
       getattr (RequestThrottlingBotoClient._client self) name w0
       = Some (Return (Data v0), w1) ->
       RequestThrottlingBotoClient.__getattr__ self name w0
       = Some (Return (Data v0), w1).
Proof.
  intros Hc Hf.
  pose proof (session_getattr_field w c name v Hc Hf) as Hs.
  split; [exact Hs |]. split.
  - unfold RequestThrottlingBotoClient.__getattr__, bind.
    cbn [composed RequestThrottlingBotoClient._client getattr
         SessionRefreshingBotoClient.as_object].
    now rewrite Hs.
  - intros self w0 w1 v0 Hg.
    unfold RequestThrottlingBotoClient.__getattr__, bind.
    now rewrite Hg.
Qed.

(** C9.  Whenever the session can be created, [boto_client] returns the
    throttling proxy wrapped around the session-refreshing proxy, which
    holds the new client; every invocation of an operation through it
    enters the throttling proxy first and the session proxy second. *)
Theorem factory_composition service region profile w0 c r :
  session_client profile service region (remote w0) = (Return c, r) ->
  exists h w1,
    boto_client service region profile w0 = Some (Return h, w1)
    /\ RequestThrottlingBotoClient._client h
       = SessionRefreshingBotoClient.as_object
    /\ _client w1 = Some c
    /\ _profile_name w1 = profile /\ _service_name w1 = service
    /\ _region_name w1 = region
    /\ remote w1 = r
    /\ forall name args w c',
         _client w = Some c' ->
         conn_getattr c' name = Some Operation ->
         exists res w' evs,
           invoke h name args w = Some (res, w')
           /\ log w'
              = (log w ++ Debug ("RequestThrottlingBotoClient: " ++ name)
                       :: Debug ("SessionRefreshingBotoClient: " ++ name)
                       :: evs)%list.
Proof.
  intros Hs. eexists. eexists.
  split; [apply boto_client_run; exact Hs |].
  repeat (split; [reflexivity |]).
  intros name args w c' Hc Hop.
  destruct (invoke composed name args w) as [[res w'] |] eqn:Hi;
    [| now apply invoke_total in Hi].
  exists res, w'.
  rewrite (invoke_operation w c' name args Hc Hop) in Hi.
  apply throttle_wrapper_enters
    with (first := Debug ("SessionRefreshingBotoClient: " ++ name)) in Hi.
  - destruct Hi as [evs Hlog]. exists evs. split; [reflexivity |].
    rewrite Hlog. cbn [add_log log]. now rewrite <- app_assoc.
  - intros w2 res0 w3. cbn [call].
    unfold SessionRefreshingBotoClient._wrap_callable. intros Hw.
    destruct (session_wrapper_log _ _ _ _ _ _ _ Hw) as [evs [Hl [_ Hsl]]].
    exists evs. split; [exact Hl | exact Hsl].
Qed.

(** An expired session on the first forward: the proxy refreshes, forwards
    once more through the new client, and hands on whatever that second
    forward gives, be it a value or any failure. *)
Lemma session_call_refreshed w c c' name args e r1 r2 res2 r3 :
  _client w = Some c ->
  conn_getattr c name = Some Operation ->
  conn_call c name args (remote w) = (Raise (Client e), r1) ->
  SessionRefreshingBotoClient.expired e = true ->
  session_client (_profile_name w) (_service_name w) (_region_name w) r1
  = (Return c', r2) ->
  conn_getattr c' name = Some Operation ->
  conn_call c' name args r2 = (res2, r3) ->
  SessionRefreshingBotoClient._wrap_callable name args w
  = Some (res2,
          after_forward
            (after_refresh
               (add_log (after_forward w c name args)
                        (Info "Refreshing boto client session..."))
               c' r2)
            c' name args).
Proof.
  intros Hc Hop Hcall He Hs Hop' Hcall'.
  unfold SessionRefreshingBotoClient._wrap_callable.
  rewrite (session_wrapper_refresh name args 1 w e (after_forward w c name args)).
  - unfold bind, logger_info, emit.
    rewrite (refresh_run _ c' r2).
    + apply session_wrapper_done.
      * rewrite (forward_run _ c' name args); [| reflexivity | exact Hop'].
        cbn [after_refresh set_client set_remote remote]. now rewrite Hcall'.
      * destruct res2 as [v | x]; [reflexivity | apply orb_true_r].
    + cbn. now rewrite Hcall.
  - rewrite (forward_run w c name args Hc Hop). now rewrite Hcall.
  - exact He.
Qed.

(** C4.  One expired-credentials failure followed by a successful repeat:
    the composed handle returns the value of the repeat, having replaced
    the client exactly once and waited for nothing. *)
Theorem expired_once_then_success w c c' name args e v r1 r2 r3 :
  _client w = Some c ->
  conn_getattr c name = Some Operation ->
  conn_call c name args (remote w) = (Raise (Client e), r1) ->
  SessionRefreshingBotoClient.expired e = true ->
  session_client (_profile_name w) (_service_name w) (_region_name w) r1
  = (Return c', r2) ->
  conn_getattr c' name = Some Operation ->
  conn_call c' name args r2 = (Return v, r3) ->
  exists w' evs,
    invoke composed name args w = Some (Return v, w')
    /\ remote w' = r3
    /\ _client w' = Some c'
    /\ log w' = (log w ++ evs)%list
    /\ evs = [Debug ("RequestThrottlingBotoClient: " ++ name);
              Debug ("SessionRefreshingBotoClient: " ++ name);
              Call c name args;
              Info "Refreshing boto client session...";
              Session (_profile_name w) (_service_name w) (_region_name w);
              Debug ("SessionRefreshingBotoClient: " ++ name);
              Call c' name args]
    /\ refreshes evs = 1 /\ attempts evs = 2 /\ sleeps evs = [].
Proof.
  intros Hc Hop Hcall He Hs Hop' Hcall'.
  eexists. eexists. split.
  { rewrite (invoke_operation w c name args Hc Hop).
    apply throttle_wrapper_done; [| reflexivity].
    cbn [call].
    apply session_call_refreshed with (c := c) (e := e) (r1 := r1) (r3 := r3);
      [exact Hc | exact Hop | exact Hcall | exact He | exact Hs
      | exact Hop' | exact Hcall']. }
  split; [cbn; now rewrite Hcall' |].
  split; [reflexivity |].
  split; [cbn; now rewrite <- !app_assoc |].
  repeat split.
Qed.

(** ** Rate limits when [time] resolves

    The lemmas of this part describe the throttling proxy in a namespace
    that binds [time], which is not the namespace the module creates (see
    [aws_globals]). *)

Lemma total_wait_snoc (ds : list Q) (d : Q) :
  (fold_right Qplus 0 (ds ++ [d]) == fold_right Qplus 0 ds + d)%Q.
Proof.
  induction ds as [| x ds IH]; cbn [app fold_right].
  - ring.
  - rewrite IH. ring.
Qed.

Lemma backoff_sum (n : nat) :
  (fold_right Qplus 0 (map backoff_seconds (seq 0 n))
   == cumulative_wait n)%Q.
Proof.
  induction n as [| n IH].
  - reflexivity.
  - rewrite seq_S, map_app. cbn [map Nat.add cumulative_wait].
    rewrite total_wait_snoc, IH. reflexivity.
Qed.

(** A run of rate-limit failures is absorbed one retry at a time: each
    costs a forward, a log record and the next wait of the policy. *)
Lemma throttled_run_retries c name args (es : list ClientError) :
  forall w count budget r_end,
    _client w = Some c ->
    conn_getattr c name = Some Operation ->
    bound "time" w = true ->
    throttled_run c name args es (remote w) r_end ->
    count + length es <= MAX_RETRIES ->
    exists w1 evs,
      RequestThrottlingBotoClient.wrapper
        (Callable (SessionRefreshingBotoClient._wrap_callable name)) args
        (length es + budget) count w
      = RequestThrottlingBotoClient.wrapper
          (Callable (SessionRefreshingBotoClient._wrap_callable name)) args
          budget (count + length es) w1
      /\ log w1 = (log w ++ evs)%list
      /\ remote w1 = r_end
      /\ _client w1 = Some c
      /\ bound "time" w1 = true
      /\ sleeps evs = map backoff_seconds (seq count (length es))
      /\ attempts evs = length es
      /\ refreshes evs = 0.
Proof.
  induction es as [| e es IH]; intros w count budget r_end Hc Hop Ht Hrun Hle.
  - cbn [throttled_run] in Hrun. subst r_end.
    exists w, []. cbn [length Nat.add]. rewrite Nat.add_0_r, app_nil_r.
    repeat split; assumption.
  - cbn [throttled_run] in Hrun.
    destruct Hrun as [r1 [Hcall [Hthr [Hexp Hrun]]]].
    cbn [length] in Hle |- *.
    pose (w0 := after_backoff (after_forward w c name args) count).
    destruct (IH w0 (count + 1) budget r_end) as [w1 [evs Hw1]].
    { exact Hc. }
    { exact Hop. }
    { exact Ht. }
    { cbn. now rewrite Hcall. }
    { lia. }
    destruct Hw1 as [Hstep [Hlog [Hrem [Hc1 [Ht1 [Hsl [Hat Hrf]]]]]]].
    subst w0.
    exists w1,
      ([Debug ("SessionRefreshingBotoClient: " ++ name); Call c name args;
        throttle_info count; Sleep (backoff_seconds count)]
       ++ evs)%list.
    split.
    { cbn [Nat.add].
      rewrite (throttle_wrapper_retry _ args _ count w e
                 (after_forward w c name args)).
      - rewrite Hstep. f_equal. lia.
      - cbn [call].
        apply session_call_once with (r := r1);
          [exact Hc | exact Hop | exact Hcall |].
        cbn [is_expired]. now rewrite Hexp.
      - exact Hthr.
      - lia.
      - exact Ht. }
    split.
    { rewrite Hlog. cbn. now rewrite <- !app_assoc. }
    split; [exact Hrem |].
    split; [exact Hc1 |].
    split; [exact Ht1 |].
    rewrite sleeps_app, attempts_app, refreshes_app, Hsl, Hat, Hrf.
    unfold throttle_info. cbn [sleeps is_sleep attempts refreshes app seq map].
    rewrite Nat.add_1_r. repeat split.
Qed.

(** With [time] bound, up to [MAX_RETRIES] failures in a row that are of
    the rate-limited kind and not of the expired kind, followed by a
    success, give that success after the waits [0.5 * 2^i] in order, one
    request more than there were failures and no refresh. *)
Lemma throttled_then_success_with_time w c name args es r_end v r :
  bound "time" w = true ->
  _client w = Some c ->
  conn_getattr c name = Some Operation ->
  throttled_run c name args es (remote w) r_end ->
  length es <= MAX_RETRIES ->
  conn_call c name args r_end = (Return v, r) ->
  exists w' evs,
    invoke composed name args w = Some (Return v, w')
    /\ log w' = (log w ++ evs)%list
    /\ remote w' = r
    /\ sleeps evs = map backoff_seconds (seq 0 (length es))
    /\ (total_wait evs == cumulative_wait (length es))%Q
    /\ attempts evs = S (length es)
    /\ refreshes evs = 0.
Proof.
  intros Ht Hc Hop Hrun Hle Hcall.
  rewrite (invoke_operation w c name args Hc Hop).
  destruct (throttled_run_retries c name args es
              (add_log w (Debug ("RequestThrottlingBotoClient: " ++ name)))
              0 (S (MAX_RETRIES - length es)) r_end)
    as [w1 [evs [Hstep [Hlog [Hrem [Hc1 [Ht1 [Hsl [Hat Hrf]]]]]]]]];
    [exact Hc | exact Hop | exact Ht | exact Hrun | lia |].
  replace (S MAX_RETRIES) with (length es + S (MAX_RETRIES - length es)) by lia.
  rewrite Hstep.
  exists (after_forward w1 c name args),
    (Debug ("RequestThrottlingBotoClient: " ++ name)
       :: evs ++ [Debug ("SessionRefreshingBotoClient: " ++ name);
                  Call c name args])%list.
  split.
  { apply throttle_wrapper_done; [| reflexivity].
    cbn [call]. apply session_call_once with (r := r);
      [exact Hc1 | exact Hop | now rewrite Hrem |]. reflexivity. }
  split.
  { cbn. rewrite Hlog. cbn. now rewrite <- !app_assoc. }
  split; [cbn; now rewrite Hrem, Hcall |].
  assert (Hs : sleeps (Debug ("RequestThrottlingBotoClient: " ++ name)
                 :: evs ++ [Debug ("SessionRefreshingBotoClient: " ++ name);
                            Call c name args])%list
               = map backoff_seconds (seq 0 (length es))).
  { cbn [sleeps is_sleep]. rewrite sleeps_app, Hsl.
    cbn [sleeps is_sleep]. apply app_nil_r. }
  split; [exact Hs |].
  split; [unfold total_wait; rewrite Hs; apply backoff_sum |].
  cbn [attempts refreshes].
  rewrite attempts_app, refreshes_app, Hat, Hrf. cbn. split; lia.
Qed.

(** With [time] bound, eleven failures in a row that are of the
    rate-limited kind and not of the expired kind: the eleventh is handed
    on as it is, after eleven requests, ten waits of 511.5 time units in
    all and no refresh. *)
Lemma throttled_exhausted_with_time w c name args es r_end e r :
  bound "time" w = true ->
  _client w = Some c ->
  conn_getattr c name = Some Operation ->
  throttled_run c name args es (remote w) r_end ->
  length es = MAX_RETRIES ->
  conn_call c name args r_end = (Raise (Client e), r) ->
  RequestThrottlingBotoClient.throttled e = true ->
  SessionRefreshingBotoClient.expired e = false ->
  exists w' evs,
    invoke composed name args w = Some (Raise (Client e), w')
    /\ log w' = (log w ++ evs)%list
    /\ remote w' = r
    /\ length (sleeps evs) = MAX_RETRIES
    /\ (total_wait evs == 511.5)%Q
    /\ attempts evs = S MAX_RETRIES
    /\ refreshes evs = 0.
Proof.
  intros Ht Hc Hop Hrun Hlen Hcall Hthr Hexp.
  rewrite (invoke_operation w c name args Hc Hop).
  destruct (throttled_run_retries c name args es
              (add_log w (Debug ("RequestThrottlingBotoClient: " ++ name)))
              0 1 r_end)
    as [w1 [evs [Hstep [Hlog [Hrem [Hc1 [Ht1 [Hsl [Hat Hrf]]]]]]]]];
    [exact Hc | exact Hop | exact Ht | exact Hrun | lia |].
  replace (S MAX_RETRIES) with (length es + 1) by lia.
  rewrite Hstep.
  exists (after_forward w1 c name args),
    (Debug ("RequestThrottlingBotoClient: " ++ name)
       :: evs ++ [Debug ("SessionRefreshingBotoClient: " ++ name);
                  Call c name args])%list.
  split.
  { apply throttle_wrapper_done.
    - cbn [call]. apply session_call_once with (r := r);
        [exact Hc1 | exact Hop | now rewrite Hrem |].
      cbn [is_expired]. now rewrite Hexp.
    - cbn [is_throttled Nat.add]. rewrite Hlen, Nat.leb_refl. apply orb_true_r. }
  split.
  { cbn. rewrite Hlog. cbn. now rewrite <- !app_assoc. }
  split; [cbn; now rewrite Hrem, Hcall |].
  assert (Hs : sleeps (Debug ("RequestThrottlingBotoClient: " ++ name)
                 :: evs ++ [Debug ("SessionRefreshingBotoClient: " ++ name);
                            Call c name args])%list
               = map backoff_seconds (seq 0 MAX_RETRIES)).
  { cbn [sleeps is_sleep]. rewrite sleeps_app, Hsl, Hlen.
    cbn [sleeps is_sleep]. apply app_nil_r. }
  split; [rewrite Hs; now rewrite length_map, length_seq |].
  split.
  { unfold total_wait. rewrite Hs, backoff_sum, cumulative_wait_closed.
    reflexivity. }
  cbn [attempts refreshes].
  rewrite attempts_app, refreshes_app, Hat, Hrf, Hlen. cbn. split; lia.
Qed.

(** ** Rate limits in the module as written *)

(** C1 does not hold of the module as written.  Its namespace never binds
    [time] (lines 1-4 import logging, botocore, ClientError and boto3
    only), so the first rate-limited attempt ends in NameError at line 74:
    the record is logged, nothing is waited for, and the attempt that
    would have succeeded is never made. *)
Theorem throttled_attempt_raises_NameError w c name args e r :
  globals w = aws_globals ->
  _client w = Some c ->
  conn_getattr c name = Some Operation ->
  conn_call c name args (remote w) = (Raise (Client e), r) ->
  RequestThrottlingBotoClient.throttled e = true ->
  SessionRefreshingBotoClient.expired e = false ->
  exists w' evs,
    invoke composed name args w = Some (Raise (NameError "time"), w')
    /\ remote w' = r
    /\ log w' = (log w ++ evs)%list
    /\ evs = [Debug ("RequestThrottlingBotoClient: " ++ name);
              Debug ("SessionRefreshingBotoClient: " ++ name);
              Call c name args;
              throttle_info 0]
    /\ attempts evs = 1
    /\ sleeps evs = [] /\ total_wait evs = 0%Q.
Proof.
  intros Hg Hc Hop Hcall Hthr Hexp.
  eexists. eexists. split.
  { rewrite (invoke_operation w c name args Hc Hop).
    apply throttle_wrapper_unbound with (e := e).
    - cbn [call]. apply session_call_once with (r := r);
        [exact Hc | exact Hop | exact Hcall |].
      cbn [is_expired]. now rewrite Hexp.
    - exact Hthr.
    - unfold MAX_RETRIES. lia.
    - unfold bound. cbn [after_forward set_remote add_log globals].
      now rewrite Hg. }
  split; [cbn; now rewrite Hcall |].
  split; [cbn; now rewrite <- !app_assoc |].
  repeat split.
Qed.

(** Whatever the namespace and whatever the service does, one invocation
    through the composed handle sleeps at most [MAX_RETRIES] times. *)
Lemma throttle_retries_bounded name args w res w' :
  invoke composed name args w = Some (res, w') ->
  exists evs,
    log w' = (log w ++ evs)%list /\ length (sleeps evs) <= MAX_RETRIES.
Proof.
  assert (Hnone : forall x : Exception, Some (Raise x, w) = Some (res, w') ->
            exists evs : list Event,
              log w' = (log w ++ evs)%list
              /\ length (sleeps evs) <= MAX_RETRIES).
  { intros x [= <- <-]. exists []. rewrite app_nil_r. split; [reflexivity |].
    cbn [sleeps length]. lia. }
  destruct (_client w) as [c |] eqn:Hc.
  - destruct (conn_getattr c name) as [[v |] |] eqn:Hop.
    + unfold invoke, RequestThrottlingBotoClient.__getattr__, bind.
      cbn [composed RequestThrottlingBotoClient._client getattr
           SessionRefreshingBotoClient.as_object].
      rewrite (session_getattr_field w c name v Hc Hop).
      cbn [callable ret call raise]. apply Hnone.
    + rewrite (invoke_operation w c name args Hc Hop). intros Hw.
      apply throttle_wrapper_log in Hw.
      * destruct Hw as [evs [Hl Hs]].
        exists (Debug ("RequestThrottlingBotoClient: " ++ name) :: evs).
        split; [rewrite Hl; cbn; now rewrite <- app_assoc |].
        cbn [sleeps is_sleep]. lia.
      * intros w0 res0 w1. cbn [call].
        unfold SessionRefreshingBotoClient._wrap_callable. intros Hw0.
        destruct (session_wrapper_log _ _ _ _ _ _ _ Hw0) as [evs [Hl [_ Hs]]].
        exists (Debug ("SessionRefreshingBotoClient: " ++ name) :: evs).
        split; [exact Hl | exact Hs].
    + unfold invoke, RequestThrottlingBotoClient.__getattr__, bind.
      cbn [composed RequestThrottlingBotoClient._client getattr
           SessionRefreshingBotoClient.as_object].
      unfold SessionRefreshingBotoClient.__getattr__, bind,
        SessionRefreshingBotoClient.self_client, client_getattr.
      rewrite Hc. cbn [ret]. rewrite Hop. cbn [raise]. apply Hnone.
  - unfold invoke, RequestThrottlingBotoClient.__getattr__, bind.
    cbn [composed RequestThrottlingBotoClient._client getattr
         SessionRefreshingBotoClient.as_object].
    unfold SessionRefreshingBotoClient.__getattr__, bind,
      SessionRefreshingBotoClient.self_client.
    rewrite Hc. cbn [raise]. apply Hnone.
Qed.

End Claims.

(** * The claims on the scripted service *)

(** Runs the invocation of the goal and offers the state it ends in. *)
Ltac run_invocation :=
  cbv zeta;
  match goal with
  | |- exists w', ?run = Some (_, w') /\ _ =>
      let outcome := eval vm_compute in run in
      match outcome with
      | Some (_, ?w1) => exists w1
      end
  end;
  split; [vm_compute; reflexivity |].

(** C3 does not hold of the module as written.  Against a service that
    rejects all eleven requests with [Throttling], the composed handle
    makes one request, not eleven, and raises NameError (line 74, [time]
    unbound) instead of handing on the eleventh failure; ten outcomes of
    the script are never asked for. *)
Theorem always_throttled_stops_at_first_attempt :
  let w := ready aws_globals (repeat Throttling 11) in
  exists w',
    @invoke scripted composed "describe_instances" [] w
    = Some (Raise (NameError "time"), w')
    /\ attempts (since w w') = 1
    /\ sleeps (since w w') = []
    /\ pending (remote w') = repeat Throttling 10.
Proof.
  run_invocation. repeat split.
Qed.


(** In a namespace that binds [time] the flag of line 24 is seen to be
    local to one entry into the session proxy: a rate limit between two
    expired sessions makes one outer invocation refresh twice. *)
Example two_refreshes_with_time :
  let w := ready ("time" :: aws_globals)
             [RequestExpired; Throttling; RequestExpired; Return "r"] in
  exists w',
    @invoke scripted composed "describe_instances" [] w = Some (Return "r", w')
    /\ refreshes (since w w') = 2.
Proof.
  run_invocation. repeat split.
Qed.

(** The scenario of the specification, in a namespace that binds [time]:
    throttled on attempts 0 to 2, served on attempt 3, after waits of 0.5,
    1.0 and 2.0, which is 3.5 in all. *)
Example throttled_thrice_with_time :
  let w := ready ("time" :: aws_globals)
             [Throttling; Throttling; Throttling; Return "r"] in
  exists w',
    @invoke scripted composed "describe_instances" [] w = Some (Return "r", w')
    /\ sleeps (since w w') = [0.5; 1.0; 2.0]%Q
    /\ (total_wait (since w w') == 3.5)%Q
    /\ attempts (since w w') = 4.
Proof.
  run_invocation. repeat split.
Qed.

(** The same scenario on the module as written. *)
Lemma throttled_attempt_raises_NameError_witness :
  let w := ready aws_globals [Throttling; Return "r"] in
  globals w = aws_globals
  /\ exists w',
       @invoke scripted composed "describe_instances" [] w
       = Some (Raise (NameError "time"), w')
       /\ pending (remote w') = [Return "r"].
Proof.
  cbv zeta. split; [reflexivity |].
  destruct (@throttled_attempt_raises_NameError scripted
              (ready aws_globals [Throttling; Return "r"]) 1
              "describe_instances" [] (error "Throttling" "Rate exceeded")
              {| pending := [Return "r"]; sessions := 1 |}
              eq_refl eq_refl eq_refl eq_refl eq_refl eq_refl)
    as [w' [evs [Hi [Hr _]]]].
  exists w'. split; [exact Hi | now rewrite Hr].
Defined.

(** One success on the first forward. *)
Lemma first_attempt_success_witness :
  let w := ready aws_globals [Return "r"] in
  @boto_client scripted "ec2" (Some "eu-central-1") None
    (start aws_globals [Return "r"])
  = Some (Return composed, w)
  /\ exists w',
       @invoke scripted composed "describe_instances" [] w
       = Some (Return "r", w')
       /\ sleeps (since w w') = [] /\ refreshes (since w w') = 0.
Proof.
  cbv zeta. split; [reflexivity |].
  destruct (@first_attempt_success scripted "ec2" (Some "eu-central-1") None
              (start aws_globals [Return "r"]) composed
              (ready aws_globals [Return "r"])
              (ready aws_globals [Return "r"]) 1
              "describe_instances" [] "r" {| pending := []; sessions := 1 |}
              eq_refl eq_refl eq_refl eq_refl)
    as [w' [evs [Hi [_ [_ [_ [Hl [Hevs _]]]]]]]].
  exists w'. split; [exact Hi |].
  unfold since. rewrite Hl, Hevs. split; reflexivity.
Defined.

(** A failure of neither kind. *)
Lemma unmatched_failure_propagates_witness :
  let w := ready aws_globals [UnauthorizedOperation; Return "r"] in
  exists w',
    @invoke scripted composed "describe_instances" [] w
    = Some (UnauthorizedOperation, w')
    /\ pending (remote w') = [Return "r"].
Proof.
  cbv zeta.
  destruct (@unmatched_failure_propagates scripted
              (ready aws_globals [UnauthorizedOperation; Return "r"]) 1
              "describe_instances" []
              (Client (error "UnauthorizedOperation" "You are not authorized."))
              {| pending := [Return "r"]; sessions := 1 |}
              eq_refl eq_refl eq_refl eq_refl eq_refl)
    as [w' [evs [Hi [Hr _]]]].
  exists w'. split; [exact Hi | now rewrite Hr].
Defined.

(** A plain attribute of the boto client. *)
Lemma data_attribute_unwrapped_witness :
  let w := ready aws_globals [] in
  @RequestThrottlingBotoClient.__getattr__ scripted composed "meta" w
  = Some (Return (@Data scripted "ClientMeta"), w).
Proof.
  cbv zeta.
  exact (proj1 (proj2 (@data_attribute_unwrapped scripted
                         (ready aws_globals []) 1 "meta" "ClientMeta"
                         eq_refl eq_refl))).
Defined.

(** Building the handle for EC2. *)
Lemma factory_composition_witness :
  exists h w1,
    @boto_client scripted "ec2" (Some "eu-central-1") None
      (start aws_globals [Return "r"])
    = Some (Return h, w1)
    /\ RequestThrottlingBotoClient._client h
       = SessionRefreshingBotoClient.as_object
    /\ _client w1 = Some 1.
Proof.
  destruct (@factory_composition scripted "ec2" (Some "eu-central-1") None
              (start aws_globals [Return "r"]) 1
              {| pending := [Return "r"]; sessions := 1 |} eq_refl)
    as [h [w1 [Hb [Hh [Hc _]]]]].
  exists h, w1. repeat split; assumption.
Defined.

(** An expired session, then a success through the new client. *)
Lemma expired_once_then_success_witness :
  let w := ready aws_globals [RequestExpired; Return "r"] in
  exists w',
    @invoke scripted composed "describe_instances" [] w = Some (Return "r", w')
    /\ _client w' = Some 2
    /\ refreshes (since w w') = 1.
Proof.
  cbv zeta.
  destruct (@expired_once_then_success scripted
              (ready aws_globals [RequestExpired; Return "r"]) 1 2
              "describe_instances" []
              (error "RequestExpired" "Request has expired.") "r"
              {| pending := [Return "r"]; sessions := 1 |}
              {| pending := [Return "r"]; sessions := 2 |}
              {| pending := []; sessions := 2 |}
              eq_refl eq_refl eq_refl eq_refl eq_refl eq_refl eq_refl)
    as [w' [evs [Hi [_ [Hc [Hl [Hevs _]]]]]]].
  exists w'. split; [exact Hi |]. split; [exact Hc |].
  unfold since. rewrite Hl, Hevs. reflexivity.
Defined.

(** * Further properties of the proxies *)

Section Proxies.
Context `{Platform}.

Implicit Types (w : World) (name : string) (args : Args) (c : Conn).

Lemma same_module_refl w : same_module w w.
Proof. repeat split. Qed.

Lemma same_module_trans w1 w2 w3 :
  same_module w1 w2 -> same_module w2 w3 -> same_module w1 w3.
Proof.
  unfold same_module. intros [A [B [C D]]] [A' [B' [C' D']]].
  repeat split; congruence.
Qed.

Lemma forward_frame name args w res w' :
  SessionRefreshingBotoClient.forward name args w = Some (res, w') ->
  same_module w w' /\ _client w' = _client w.
Proof.
  unfold SessionRefreshingBotoClient.forward, bind, logger_debug, emit,
    SessionRefreshingBotoClient.self_client, client_getattr.
  cbn [add_log _client].
  destruct (_client w) as [c |] eqn:Hc; cbn [ret raise].
  - destruct (conn_getattr c name) as [[v |] |]; cbn [ret raise call].
    + intros [= <- <-]. cbn. rewrite Hc. repeat split.
    + unfold remote_call. cbn [remote add_log].
      destruct (conn_call c name args (remote w)) as [o rem].
      intros [= <- <-]. cbn. rewrite Hc. repeat split.
    + intros [= <- <-]. cbn. rewrite Hc. repeat split.
  - intros [= <- <-]. cbn. rewrite Hc. repeat split.
Qed.

Lemma refresh_frame w res w' :
  SessionRefreshingBotoClient._refresh_session w = Some (res, w') ->
  same_module w w'.
Proof.
  unfold SessionRefreshingBotoClient._refresh_session.
  destruct (session_client _ _ _ _) as [[c | x] rem];
    intros [= <- <-]; repeat split.
Qed.

Lemma session_wrapper_frame name args budget retried w res w' :
  SessionRefreshingBotoClient.wrapper name args budget retried w
  = Some (res, w') ->
  same_module w w'.
Proof.
  revert retried w res w'.
  induction budget as [| budget IH]; intros retried w res w'; [discriminate |].
  cbn [SessionRefreshingBotoClient.wrapper].
  destruct (SessionRefreshingBotoClient.forward name args w) as [[o w1] |] eqn:Hf;
    [| discriminate].
  destruct (forward_frame _ _ _ _ _ Hf) as [Hm _].
  assert (Hstop : Some (o, w1) = Some (res, w') -> same_module w w')
    by (now intros [= <- <-]).
  destruct o as [v | x]; [exact Hstop |].
  destruct x as [e | | | | |]; try exact Hstop.
  destruct (SessionRefreshingBotoClient.expired e); [| exact Hstop].
  destruct retried; cbn [negb]; [exact Hstop |].
  unfold bind, logger_info, emit.
  destruct (SessionRefreshingBotoClient._refresh_session (add_log w1 _))
    as [[[[] | x] w2] |] eqn:Hrf; [| | discriminate].
  - intros Hw. apply refresh_frame in Hrf. apply IH in Hw.
    apply (same_module_trans _ w1); [exact Hm |].
    apply (same_module_trans _ w2); [exact Hrf | exact Hw].
  - intros [= <- <-]. apply refresh_frame in Hrf.
    apply (same_module_trans _ w1); [exact Hm | exact Hrf].
Qed.

Lemma throttle_wrapper_frame (attr : attr) args budget count w res w' :
  (forall w0 res0 w1, call attr args w0 = Some (res0, w1) -> same_module w0 w1) ->
  RequestThrottlingBotoClient.wrapper attr args budget count w = Some (res, w') ->
  same_module w w'.
Proof.
  intros Hattr. revert count w res w'.
  induction budget as [| budget IH]; intros count w res w'; [discriminate |].
  cbn [RequestThrottlingBotoClient.wrapper].
  destruct (call attr args w) as [[o w1] |] eqn:Hc; [| discriminate].
  pose proof (Hattr _ _ _ Hc) as Hm.
  assert (Hstop : Some (o, w1) = Some (res, w') -> same_module w w')
    by (now intros [= <- <-]).
  destruct o as [v | x]; [exact Hstop |].
  destruct x as [e | | | | |]; try exact Hstop.
  destruct (RequestThrottlingBotoClient.throttled e); [| exact Hstop].
  destruct (Nat.ltb_spec count MAX_RETRIES) as [Hlt | Hge]; [| exact Hstop].
  rewrite backoff_step by exact Hlt.
  unfold bind, logger_info, emit, time_sleep.
  rewrite bound_add_log.
  destruct (bound "time" w1); cbn [emit raise].
  - unfold emit. intros Hw. apply IH in Hw.
    apply (same_module_trans _ w1); [exact Hm | exact Hw].
  - intros [= <- <-]. exact Hm.
Qed.

(** The only things an invocation reaches are [_client], the remote
    service and the log. *)
Lemma invoke_frame name args w res w' :
  invoke composed name args w = Some (res, w') -> same_module w w'.
Proof.
  assert (Hnone : forall x : Exception,
            Some (Raise x, w) = Some (res, w') -> same_module w w').
  { intros x [= <- <-]. apply same_module_refl. }
  destruct (_client w) as [c |] eqn:Hc.
  - destruct (conn_getattr c name) as [[v |] |] eqn:Hop.
    + unfold invoke, RequestThrottlingBotoClient.__getattr__, bind.
      cbn [composed RequestThrottlingBotoClient._client getattr
           SessionRefreshingBotoClient.as_object].
      rewrite (session_getattr_field w c name v Hc Hop).
      cbn [callable ret call raise]. apply Hnone.
    + rewrite (invoke_operation w c name args Hc Hop). intros Hw.
      apply throttle_wrapper_frame in Hw; [exact Hw |].
      intros w0 res0 w1. cbn [call].
      unfold SessionRefreshingBotoClient._wrap_callable.
      apply session_wrapper_frame.
    + unfold invoke, RequestThrottlingBotoClient.__getattr__, bind.
      cbn [composed RequestThrottlingBotoClient._client getattr
           SessionRefreshingBotoClient.as_object].
      unfold SessionRefreshingBotoClient.__getattr__, bind,
        SessionRefreshingBotoClient.self_client, client_getattr.
      rewrite Hc. cbn [ret]. rewrite Hop. cbn [raise]. apply Hnone.
  - unfold invoke, RequestThrottlingBotoClient.__getattr__, bind.
    cbn [composed RequestThrottlingBotoClient._client getattr
         SessionRefreshingBotoClient.as_object].
    unfold SessionRefreshingBotoClient.__getattr__, bind,
      SessionRefreshingBotoClient.self_client.
    rewrite Hc. cbn [raise]. apply Hnone.
Qed.

End Proxies.

Section ProxyBounds.
Context `{Platform}.

Implicit Types (w : World) (name : string) (args : Args) (c : Conn).

Lemma session_wrapper_counts name args budget retried w res w' :
  SessionRefreshingBotoClient.wrapper name args budget retried w
  = Some (res, w') ->
  exists evs,
    log w' = (log w ++ evs)%list
    /\ refreshes evs <= (if retried then 0 else 1)
    /\ attempts evs <= (if retried then 1 else 2)
    /\ sleeps evs = [].
Proof.
  revert retried w res w'.
  induction budget as [| budget IH]; intros retried w res w'; [discriminate |].
  cbn [SessionRefreshingBotoClient.wrapper].
  destruct (SessionRefreshingBotoClient.forward name args w) as [[o w1] |] eqn:Hf;
    [| discriminate].
  destruct (forward_log _ _ _ _ _ Hf) as [evs [Hlog [Hr [Hs Ha]]]].
  assert (Hstop : Some (o, w1) = Some (res, w') ->
    exists evs0,
      log w' = (log w ++ evs0)%list
      /\ refreshes evs0 <= (if retried then 0 else 1)
      /\ attempts evs0 <= (if retried then 1 else 2)
      /\ sleeps evs0 = []).
  { intros [= <- <-].
    exists (Debug ("SessionRefreshingBotoClient: " ++ name) :: evs).
    cbn [refreshes attempts sleeps is_sleep]. rewrite Hr, Hs.
    repeat split; [exact Hlog | lia | destruct retried; lia]. }
  destruct o as [v | x]; [exact Hstop |].
  destruct x as [e | | | | |]; try exact Hstop.
  destruct (SessionRefreshingBotoClient.expired e); [| exact Hstop].
  destruct retried; cbn [negb]; [exact Hstop |].
  unfold bind, logger_info, emit.
  destruct (SessionRefreshingBotoClient._refresh_session (add_log w1 _))
    as [[[[] | x] w2] |] eqn:Hrf; [| | discriminate].
  - intros Hw. apply refresh_log in Hrf.
    destruct (IH _ _ _ _ Hw) as [evs2 [Hlog2 [Hr2 [Ha2 Hs2]]]].
    exists (Debug ("SessionRefreshingBotoClient: " ++ name)
              :: evs ++ Info "Refreshing boto client session..."
              :: Session (_profile_name w1) (_service_name w1) (_region_name w1)
              :: evs2)%list.
    rewrite Hlog2, Hrf. cbn [add_log log _profile_name _service_name _region_name].
    rewrite Hlog. cbn [refreshes attempts sleeps is_sleep].
    rewrite refreshes_app, attempts_app, sleeps_app, Hr, Hs.
    cbn [refreshes attempts sleeps is_sleep app]. rewrite Hs2.
    split; [now rewrite <- !app_assoc |].
    split; [lia |]. split; [lia | reflexivity].
  - intros [= <- <-]. apply refresh_log in Hrf.
    exists (Debug ("SessionRefreshingBotoClient: " ++ name)
              :: evs ++ [Info "Refreshing boto client session...";
                         Session (_profile_name w1) (_service_name w1)
                                 (_region_name w1)])%list.
    rewrite Hrf. cbn [add_log log _profile_name _service_name _region_name].
    rewrite Hlog. cbn [refreshes attempts sleeps is_sleep].
    rewrite refreshes_app, attempts_app, sleeps_app, Hr, Hs.
    cbn [refreshes attempts sleeps is_sleep app].
    split; [now rewrite <- !app_assoc |].
    split; [lia |]. split; [lia | reflexivity].
Qed.

Lemma throttle_wrapper_counts (attr : attr) args budget count w res w' :
  (forall w0 res0 w1, call attr args w0 = Some (res0, w1) ->
     exists evs, log w1 = (log w0 ++ evs)%list
                 /\ refreshes evs <= 1 /\ attempts evs <= 2
                 /\ sleeps evs = []) ->
  RequestThrottlingBotoClient.wrapper attr args budget count w = Some (res, w') ->
  exists evs,
    log w' = (log w ++ evs)%list
    /\ length (sleeps evs) <= MAX_RETRIES - count
    /\ attempts evs <= 2 * S (MAX_RETRIES - count)
    /\ refreshes evs <= S (MAX_RETRIES - count).
Proof.
  intros Hattr. revert count w res w'.
  induction budget as [| budget IH]; intros count w res w'; [discriminate |].
  cbn [RequestThrottlingBotoClient.wrapper].
  destruct (call attr args w) as [[o w1] |] eqn:Hc; [| discriminate].
  destruct (Hattr _ _ _ Hc) as [evs [Hlog [Hr [Ha Hs]]]].
  assert (Hstop : Some (o, w1) = Some (res, w') ->
    exists evs0, log w' = (log w ++ evs0)%list
                 /\ length (sleeps evs0) <= MAX_RETRIES - count
                 /\ attempts evs0 <= 2 * S (MAX_RETRIES - count)
                 /\ refreshes evs0 <= S (MAX_RETRIES - count)).
  { intros [= <- <-]. exists evs. rewrite Hs. cbn [length].
    repeat split; [exact Hlog | lia | lia | lia]. }
  destruct o as [v | x]; [exact Hstop |].
  destruct x as [e | | | | |]; try exact Hstop.
  destruct (RequestThrottlingBotoClient.throttled e); [| exact Hstop].
  destruct (Nat.ltb_spec count MAX_RETRIES) as [Hlt | Hge]; [| exact Hstop].
  rewrite backoff_step by exact Hlt.
  unfold bind, logger_info, emit, time_sleep.
  rewrite bound_add_log.
  destruct (bound "time" w1); cbn [emit raise].
  - unfold emit. intros Hw.
    destruct (IH _ _ _ _ Hw) as [evs2 [Hlog2 [Hs2 [Ha2 Hr2]]]].
    exists (evs ++ throttle_info count
              :: Sleep (backoff_seconds count) :: evs2)%list.
    rewrite Hlog2. cbn [add_log log].
    rewrite Hlog, sleeps_app, attempts_app, refreshes_app, Hs.
    unfold throttle_info.
    cbn [sleeps is_sleep attempts refreshes length app].
    split; [now rewrite <- !app_assoc |].
    repeat split; lia.
  - intros [= <- <-]. exists (evs ++ [throttle_info count])%list.
    cbn [add_log log].
    rewrite Hlog, sleeps_app, attempts_app, refreshes_app, Hs.
    unfold throttle_info.
    cbn [sleeps is_sleep attempts refreshes length app].
    split; [now rewrite <- !app_assoc |].
    repeat split; lia.
Qed.

(** Every invocation through the composed handle ends, with a value or an
    exception, after at most 10 sleeps, 22 requests to the service and 11
    new sessions, whatever the service answers and whether or not [time]
    resolves. *)
Theorem invocation_bounded name args w :
  exists res w' evs,
    invoke composed name args w = Some (res, w')
    /\ log w' = (log w ++ evs)%list
    /\ length (sleeps evs) <= 10
    /\ attempts evs <= 22
    /\ refreshes evs <= 11.
Proof.
  destruct (invoke composed name args w) as [[res w'] |] eqn:Hi;
    [| now apply invoke_total in Hi].
  exists res, w'.
  assert (Hnone : forall x : Exception, Some (Raise x, w) = Some (res, w') ->
            exists evs : list Event,
              Some (res, w') = Some (res, w')
              /\ log w' = (log w ++ evs)%list
              /\ length (sleeps evs) <= 10 /\ attempts evs <= 22
              /\ refreshes evs <= 11).
  { intros x [= <- <-]. exists []. rewrite app_nil_r. cbn.
    repeat split; lia. }
  destruct (_client w) as [c |] eqn:Hc.
  - destruct (conn_getattr c name) as [[v |] |] eqn:Hop.
    + revert Hi. unfold invoke, RequestThrottlingBotoClient.__getattr__, bind.
      cbn [composed RequestThrottlingBotoClient._client getattr
           SessionRefreshingBotoClient.as_object].
      rewrite (session_getattr_field w c name v Hc Hop).
      cbn [callable ret call raise]. apply Hnone.
    + rewrite (invoke_operation w c name args Hc Hop) in Hi.
      apply throttle_wrapper_counts in Hi.
      * destruct Hi as [evs [Hl [Hs [Ha Hr]]]].
        exists (Debug ("RequestThrottlingBotoClient: " ++ name) :: evs).
        split; [reflexivity |].
        split; [rewrite Hl; cbn; now rewrite <- app_assoc |].
        cbn [sleeps is_sleep attempts refreshes].
        unfold MAX_RETRIES in *. cbn [Nat.sub] in *. repeat split; lia.
      * intros w0 res0 w1. cbn [call].
        unfold SessionRefreshingBotoClient._wrap_callable.
        apply session_wrapper_counts.
    + revert Hi. unfold invoke, RequestThrottlingBotoClient.__getattr__, bind.
      cbn [composed RequestThrottlingBotoClient._client getattr
           SessionRefreshingBotoClient.as_object].
      unfold SessionRefreshingBotoClient.__getattr__, bind,
        SessionRefreshingBotoClient.self_client, client_getattr.
      rewrite Hc. cbn [ret]. rewrite Hop. cbn [raise]. apply Hnone.
  - revert Hi. unfold invoke, RequestThrottlingBotoClient.__getattr__, bind.
    cbn [composed RequestThrottlingBotoClient._client getattr
         SessionRefreshingBotoClient.as_object].
    unfold SessionRefreshingBotoClient.__getattr__, bind,
      SessionRefreshingBotoClient.self_client.
    rewrite Hc. cbn [raise]. apply Hnone.
Qed.

(** No invocation touches the identity of the session proxy or the module
    namespace: profile, service and region stay those of [__init__]. *)
Theorem invocation_keeps_identity name args w :
  exists res w',
    invoke composed name args w = Some (res, w')
    /\ _profile_name w' = _profile_name w
    /\ _service_name w' = _service_name w
    /\ _region_name w' = _region_name w
    /\ globals w' = globals w.
Proof.
  destruct (invoke composed name args w) as [[res w'] |] eqn:Hi;
    [| now apply invoke_total in Hi].
  exists res, w'. destruct (invoke_frame _ _ _ _ _ Hi) as [Hg [Hp [Hs Hr]]].
  repeat split; assumption.
Qed.

End ProxyBounds.

(** ** Refreshing once *)

Section RefreshBound.
Context `{Platform}.

Implicit Types (w : World) (name : string) (args : Args) (c : Conn).




End RefreshBound.

Section ProxyEdges.
Context `{Platform}.

Implicit Types (w : World) (name : string) (args : Args) (c : Conn).

(** When the refresh that follows an expired failure cannot create the
    session, the exception of the session creation leaves the composed
    handle (unless it is itself of the rate-limited kind): the request is
    not repeated, nothing is waited for, and the old client stays in
    place. *)
Theorem refresh_failure_propagates w c name args e x r1 r2 :
  _client w = Some c ->
  conn_getattr c name = Some Operation ->
  conn_call c name args (remote w) = (Raise (Client e), r1) ->
  SessionRefreshingBotoClient.expired e = true ->
  session_client (_profile_name w) (_service_name w) (_region_name w) r1
  = (Raise x, r2) ->
  is_throttled x = false ->
  exists w',
    invoke composed name args w = Some (Raise x, w')
    /\ remote w' = r2
    /\ _client w' = Some c
    /\ log w'
       = (log w ++ [Debug ("RequestThrottlingBotoClient: " ++ name);
                    Debug ("SessionRefreshingBotoClient: " ++ name);
                    Call c name args;
                    Info "Refreshing boto client session...";
                    Session (_profile_name w) (_service_name w)
                            (_region_name w)])%list.
Proof.
  intros Hc Hop Hcall Hexp Hses Hthr.
  rewrite (invoke_operation w c name args Hc Hop).
  set (w0 := add_log w (Debug ("RequestThrottlingBotoClient: " ++ name))).
  set (w1 := add_log (after_forward w0 c name args)
               (Info "Refreshing boto client session...")).
  exists (set_remote
            (add_log w1 (Session (_profile_name w) (_service_name w)
                                 (_region_name w)))
            r2).
  split.
  - apply throttle_wrapper_done.
    + cbn [call]. unfold SessionRefreshingBotoClient._wrap_callable.
      rewrite (session_wrapper_refresh name args 1 w0 e
                 (after_forward w0 c name args) ).
      * unfold bind, logger_info, emit.
        fold w1. unfold SessionRefreshingBotoClient._refresh_session.
        replace (remote w1) with r1
          by (subst w1 w0; unfold after_forward; cbn; now rewrite Hcall).
        replace (_profile_name w1) with (_profile_name w) by reflexivity.
        replace (_service_name w1) with (_service_name w) by reflexivity.
        replace (_region_name w1) with (_region_name w) by reflexivity.
        rewrite Hses. reflexivity.
      * rewrite (forward_run w0 c name args); [| exact Hc | exact Hop].
        replace (remote w0) with (remote w) by reflexivity.
        now rewrite Hcall.
      * exact Hexp.
    + now rewrite Hthr.
  - split; [reflexivity |]. split; [exact Hc |].
    subst w1 w0. unfold after_forward. cbn. now rewrite <- !app_assoc.
Qed.

(** Of the names that fall into [__getattr__] on both proxies, those that
    do not begin with an underscore, one the boto client does not have
    raises AttributeError out of the composed handle, and one that is a
    plain value of the boto client cannot be called (TypeError); neither
    reaches the service nor leaves a record. *)
Theorem missing_operation_raises w c name args :
  reaches_getattr name = true ->
  _client w = Some c ->
  (conn_getattr c name = None ->
   invoke composed name args w = Some (Raise (AttributeError name), w))
  /\ (forall v, conn_getattr c name = Some (Field v) ->
       invoke composed name args w = Some (Raise TypeError, w)).
Proof.
  intros _ Hc. split.
  - intros Hop. unfold invoke, RequestThrottlingBotoClient.__getattr__, bind.
    cbn [composed RequestThrottlingBotoClient._client getattr
         SessionRefreshingBotoClient.as_object].
    unfold SessionRefreshingBotoClient.__getattr__, bind,
      SessionRefreshingBotoClient.self_client, client_getattr.
    rewrite Hc. cbn [ret]. rewrite Hop. reflexivity.
  - intros v Hop. unfold invoke, RequestThrottlingBotoClient.__getattr__, bind.
    cbn [composed RequestThrottlingBotoClient._client getattr
         SessionRefreshingBotoClient.as_object].
    rewrite (session_getattr_field w c name v Hc Hop). reflexivity.
Qed.

End ProxyEdges.

(** * The callers of the client *)

Section Steps.
Context `{Platform}.

Implicit Types (w : World) (name : string) (args : Args) (c : Conn).

Lemma since_app w w' evs : log w' = (log w ++ evs)%list -> since w w' = evs.
Proof.
  intros Hl. unfold since. rewrite Hl.
  rewrite skipn_app, Nat.sub_diag, skipn_all. reflexivity.
Qed.

Lemma requests_app (evs1 evs2 : list Event) :
  requests (evs1 ++ evs2)%list = (requests evs1 ++ requests evs2)%list.
Proof.
  induction evs1 as [| ev evs1 IH]; [reflexivity |].
  destruct ev; cbn [requests app]; now rewrite IH.
Qed.

Lemma sessions_of_app (evs1 evs2 : list Event) :
  sessions_of (evs1 ++ evs2)%list = (sessions_of evs1 ++ sessions_of evs2)%list.
Proof.
  induction evs1 as [| ev evs1 IH]; [reflexivity |].
  destruct ev; cbn [sessions_of app]; now rewrite IH.
Qed.

Lemma bind_return {A B} (m : M A) (k : A -> M B) w a w1 :
  m w = Some (Return a, w1) -> bind m k w = k a w1.
Proof. intros Hm. unfold bind. now rewrite Hm. Qed.

Lemma bind_raise {A B} (m : M A) (k : A -> M B) w x w1 :
  m w = Some (Raise x, w1) -> bind m k w = Some (Raise x, w1).
Proof. intros Hm. unfold bind. now rewrite Hm. Qed.

(** [boto_client] ends, and whatever the session creation answers it
    leaves the module namespace alone and logs the one session. *)
Lemma boto_client_frame service region profile w :
  exists res w',
    boto_client service region profile w = Some (res, w')
    /\ globals w' = globals w
    /\ log w' = (log w ++ [Session profile service region])%list
    /\ match res with
       | Return h =>
           h = composed
           /\ exists c,
                session_client profile service region (remote w)
                = (Return c, remote w')
                /\ _client w' = Some c
       | Raise x =>
           session_client profile service region (remote w)
           = (Raise x, remote w')
       end.
Proof.
  unfold boto_client, bind, SessionRefreshingBotoClient.__init__,
    SessionRefreshingBotoClient._refresh_session.
  cbn [_profile_name _service_name _region_name remote].
  destruct (session_client profile service region (remote w)) as [[c | x] r];
    cbn [ret].
  - eexists _, _. split; [reflexivity |]. repeat split. now exists c.
  - eexists _, _. split; [reflexivity |]. repeat split.
Qed.

(** One request that the service answers with anything the proxies do not
    retry. *)
Lemma invoke_step w c name args res r :
  _client w = Some c ->
  conn_getattr c name = Some Operation ->
  conn_call c name args (remote w) = (res, r) ->
  match res with
  | Return _ => true
  | Raise x => negb (is_expired x) && negb (is_throttled x)
  end = true ->
  exists w',
    invoke composed name args w = Some (res, w')
    /\ remote w' = r
    /\ _client w' = Some c
    /\ globals w' = globals w
    /\ log w'
       = (log w ++ [Debug ("RequestThrottlingBotoClient: " ++ name);
                    Debug ("SessionRefreshingBotoClient: " ++ name);
                    Call c name args])%list.
Proof.
  intros Hc Hop Hcall Hres.
  rewrite (invoke_once w c name args res r Hc Hop Hcall Hres).
  eexists. split; [reflexivity |].
  unfold after_forward. cbn. rewrite Hcall. cbn.
  repeat split; [exact Hc | now rewrite <- !app_assoc].
Qed.

End Steps.

(** ** Reading the responses *)

Lemma sum_lists (ls : list (list py)) (start : list py) :
  sum (map PyList ls) start = Return (start ++ concat ls)%list.
Proof.
  revert start. induction ls as [| l ls IH]; intros start; cbn [map sum concat].
  - now rewrite app_nil_r.
  - rewrite IH. now rewrite app_assoc.
Qed.

Lemma comprehension_items (key : string) (rs : list py) (ls : list (list py)) :
  Forall2 (fun r l => getitem r key = Return (PyList l)) rs ls ->
  comprehension (fun r => getitem r key) rs = Return (map PyList ls).
Proof.
  induction 1 as [| r l rs ls Hr _ IH]; cbn [comprehension map];
    [reflexivity |].
  now rewrite Hr, IH.
Qed.

(** Distinct clusters get distinct instance profiles. *)
Theorem make_instance_profile_name_injective (a b : string) :
  make_instance_profile_name a = make_instance_profile_name b -> a = b.
Proof.
  unfold make_instance_profile_name. cbn. intros E.
  now repeat (injection E as E).
Qed.

Lemma comprehension_stops (key : string) (rs : list py) (ls : list (list py))
    (bad : py) (x : Exception) (post : list py) :
  Forall2 (fun r l => getitem r key = Return (PyList l)) rs ls ->
  getitem bad key = Raise x ->
  comprehension (fun r => getitem r key) (rs ++ bad :: post) = Raise x.
Proof.
  intros Hrs Hbad.
  induction Hrs as [| r l rs ls Hr _ IH]; cbn [comprehension app].
  - now rewrite Hbad.
  - now rewrite Hr, IH.
Qed.

Lemma dict_set_keys (d : list (string * py)) (key : string) (v : py) (k : string) :
  In k (map fst (dict_set d key v)) <-> k = key \/ In k (map fst d).
Proof.
  induction d as [| [k0 x] d IH]; cbn [dict_set map fst In].
  - intuition congruence.
  - destruct (String.eqb_spec k0 key) as [-> | Hne]; cbn [map fst In].
    + intuition congruence.
    + rewrite IH. intuition congruence.
Qed.

Lemma dict_set_NoDup (d : list (string * py)) (key : string) (v : py) :
  NoDup (map fst d) -> NoDup (map fst (dict_set d key v)).
Proof.
  induction d as [| [k0 x] d IH]; cbn [dict_set map fst]; intros Hnd.
  - constructor; [intros [] | constructor].
  - inversion Hnd as [| ? ? Hin Hnd']; subst.
    destruct (String.eqb_spec k0 key) as [-> | Hne]; cbn [map fst].
    + now constructor.
    + constructor; [| now apply IH].
      rewrite dict_set_keys. intros [-> | Hin']; [congruence | contradiction].
Qed.

Section CallersProperties.
Context `{Aws}.

Implicit Types (w : World) (c : AwsClient) (kwargs : list (string * py)).

Lemma bound_globals name w w' :
  globals w' = globals w -> bound name w' = bound name w.
Proof. intros Hg. unfold bound. now rewrite Hg. Qed.

(** ** list_instances, list_cluster_instances, fetch_user_data *)

Lemma list_instances_run w c kwargs resp r :
  _client w = Some c ->
  aws_getattr c "describe_instances" = Some Operation ->
  aws_request c "describe_instances" kwargs (remote w) = (Return resp, r) ->
  exists w',
    list_instances composed kwargs w
    = Some (match getitem resp "Reservations" with
            | Raise x => Raise x
            | Return reservations =>
                match iterate reservations with
                | Raise x => Raise x
                | Return rs =>
                    match comprehension (fun r0 => getitem r0 "Instances") rs with
                    | Raise x => Raise x
                    | Return lists =>
                        match sum lists [] with
                        | Raise x => Raise x
                        | Return instances => Return (PyList instances)
                        end
                    end
                end
            end, w')
    /\ remote w' = r
    /\ log w'
       = (log w ++ [Debug "RequestThrottlingBotoClient: describe_instances";
                    Debug "SessionRefreshingBotoClient: describe_instances";
                    Call c "describe_instances" kwargs])%list.
Proof.
  intros Hc Hop Hcall.
  destruct (invoke_step w c "describe_instances" kwargs (Return resp) r
              Hc Hop Hcall eq_refl) as [w' [Hi [Hr [_ [_ Hl]]]]].
  exists w'. split; [| split; [exact Hr | exact Hl]].
  unfold list_instances. rewrite (bind_return _ _ _ _ _ Hi).
  unfold bind, lift, ret.
  destruct (getitem resp "Reservations") as [reservations | x]; [| reflexivity].
  destruct (iterate reservations) as [rs | x]; [| reflexivity].
  destruct (comprehension _ rs) as [lists | x]; [| reflexivity].
  now destruct (sum lists []).
Qed.

(** [list_instances] makes the one request [describe_instances] with the
    keyword arguments it was given and returns the instances of all the
    reservations of the response, in the order of the response. *)
Theorem list_instances_flattens w c kwargs resp r rs ls :
  _client w = Some c ->
  aws_getattr c "describe_instances" = Some Operation ->
  aws_request c "describe_instances" kwargs (remote w) = (Return resp, r) ->
  getitem resp "Reservations" = Return (PyList rs) ->
  Forall2 (fun r0 l => getitem r0 "Instances" = Return (PyList l)) rs ls ->
  exists w',
    list_instances composed kwargs w = Some (Return (PyList (concat ls)), w')
    /\ remote w' = r
    /\ requests (since w w') = [("describe_instances", kwargs)]
    /\ sleeps (since w w') = [].
Proof.
  intros Hc Hop Hcall Hres Hrs.
  destruct (list_instances_run w c kwargs resp r Hc Hop Hcall)
    as [w' [Hi [Hr Hl]]].
  exists w'. split.
  - rewrite Hi, Hres. cbn [iterate].
    rewrite (comprehension_items _ _ _ Hrs), sum_lists. reflexivity.
  - split; [exact Hr |]. rewrite (since_app _ _ _ Hl). split; reflexivity.
Qed.

(** One reservation that has no key [Instances] makes [list_instances]
    raise KeyError, whatever the reservations before and after it hold:
    no partial list is returned. *)
Theorem list_instances_reservation_without_instances
    w c kwargs resp r rs ls d post :
  _client w = Some c ->
  aws_getattr c "describe_instances" = Some Operation ->
  aws_request c "describe_instances" kwargs (remote w) = (Return resp, r) ->
  getitem resp "Reservations" = Return (PyList (rs ++ PyDict d :: post)) ->
  Forall2 (fun r0 l => getitem r0 "Instances" = Return (PyList l)) rs ls ->
  lookup "Instances" d = None ->
  exists w',
    list_instances composed kwargs w = Some (Raise (KeyError "Instances"), w')
    /\ remote w' = r.
Proof.
  intros Hc Hop Hcall Hres Hrs Hd.
  destruct (list_instances_run w c kwargs resp r Hc Hop Hcall)
    as [w' [Hi [Hr Hl]]].
  exists w'. split; [| exact Hr].
  rewrite Hi, Hres. cbn [iterate].
  rewrite (comprehension_stops "Instances" rs ls (PyDict d)
             (KeyError "Instances") post Hrs); [reflexivity |].
  cbn [getitem]. now rewrite Hd.
Qed.

(** [list_cluster_instances] asks for the instances whose tag [Name] is
    the cluster name, in one request, and flattens the reservations like
    [list_instances]. *)
Theorem list_cluster_instances_filters_by_name w c cluster_name resp r rs ls :
  _client w = Some c ->
  aws_getattr c "describe_instances" = Some Operation ->
  aws_request c "describe_instances"
    [("Filters",
      PyList [PyDict [("Name", PyStr "tag:Name");
                      ("Values", PyList [PyStr cluster_name])]])]
    (remote w)
  = (Return resp, r) ->
  getitem resp "Reservations" = Return (PyList rs) ->
  Forall2 (fun r0 l => getitem r0 "Instances" = Return (PyList l)) rs ls ->
  exists w' filters,
    list_cluster_instances composed cluster_name w
    = Some (Return (PyList (concat ls)), w')
    /\ requests (since w w') = [("describe_instances", [("Filters", filters)])]
    /\ filters = PyList [PyDict [("Name", PyStr "tag:Name");
                                 ("Values", PyList [PyStr cluster_name])]].
Proof.
  intros Hc Hop Hcall Hres Hrs.
  destruct (list_instances_run w c _ resp r Hc Hop Hcall) as [w' [Hi [Hr Hl]]].
  exists w'. eexists. split.
  - unfold list_cluster_instances. rewrite Hi, Hres. cbn [iterate].
    rewrite (comprehension_items _ _ _ Hrs), sum_lists. reflexivity.
  - rewrite (since_app _ _ _ Hl). split; reflexivity.
Qed.

(** [fetch_user_data] asks for the attribute [userData] of the instance
    and returns the [Value] of the response's [UserData]; for an instance
    without user data, whose [UserData] has no [Value], it raises
    KeyError. *)
Theorem fetch_user_data_value w c instance_id resp r user_data :
  _client w = Some c ->
  aws_getattr c "describe_instance_attribute" = Some Operation ->
  aws_request c "describe_instance_attribute"
    [("InstanceId", PyStr instance_id); ("Attribute", PyStr "userData")]
    (remote w)
  = (Return resp, r) ->
  getitem resp "UserData" = Return (PyDict user_data) ->
  exists w',
    fetch_user_data composed instance_id w
    = Some (match lookup "Value" user_data with
            | Some v => Return v
            | None => Raise (KeyError "Value")
            end, w')
    /\ remote w' = r
    /\ attempts (since w w') = 1.
Proof.
  intros Hc Hop Hcall Hud.
  destruct (invoke_step w c "describe_instance_attribute" _ (Return resp) r
              Hc Hop Hcall eq_refl) as [w' [Hi [Hr [_ [_ Hl]]]]].
  exists w'. split; [| split; [exact Hr |]].
  - unfold fetch_user_data. rewrite (bind_return _ _ _ _ _ Hi).
    unfold bind, lift. rewrite Hud. reflexivity.
  - rewrite (since_app _ _ _ Hl). reflexivity.
Qed.

(** ** The instance profile *)

Lemma get_instance_profile_run cluster_name w c r0 res r1 :
  aws_client None "iam" None (remote w) = (Return c, r0) ->
  aws_getattr c "get_instance_profile" = Some Operation ->
  aws_request c "get_instance_profile"
    [("InstanceProfileName", PyStr (make_instance_profile_name cluster_name))]
    r0
  = (res, r1) ->
  match res with
  | Return _ => true
  | Raise x => negb (is_expired x) && negb (is_throttled x)
  end = true ->
  exists w',
    get_instance_profile cluster_name w = Some (profile_outcome res, w')
    /\ remote w' = r1
    /\ globals w' = globals w
    /\ log w'
       = (log w ++ [Session None "iam" None;
                    Debug "RequestThrottlingBotoClient: get_instance_profile";
                    Debug "SessionRefreshingBotoClient: get_instance_profile";
                    Call c "get_instance_profile"
                      [("InstanceProfileName",
                        PyStr (make_instance_profile_name cluster_name))]])%list.
Proof.
  intros Hs Hop Hcall Hres.
  pose proof (boto_client_run "iam" None None w c r0 Hs) as Hb.
  match type of Hb with _ = Some (_, ?w1) => set (w1' := w1) in * end.
  destruct (invoke_step w1' c "get_instance_profile" _ res r1
              eq_refl Hop Hcall Hres) as [w' [Hi [Hr [_ [Hg Hl]]]]].
  exists w'. split; [| split; [exact Hr | split; [exact Hg |]]].
  - unfold get_instance_profile. rewrite (bind_return _ _ _ _ _ Hb).
    unfold try_except.
    destruct res as [profile | x].
    + rewrite (bind_return _ _ _ _ _ Hi). unfold lift. cbn [profile_outcome].
      unfold getitem, KeyError.
      destruct profile as [| b | n | s | items | d]; try reflexivity.
      now destruct (lookup "InstanceProfile" d).
    + rewrite (bind_raise _ _ _ _ _ Hi).
      destruct x as [e | | | | |]; try reflexivity.
      cbn [profile_outcome]. now destruct (Code e =? "NoSuchEntity").
  - rewrite Hl. subst w1'. cbn [log]. now rewrite <- app_assoc.
Qed.

(** A profile that does not exist is no error for [get_instance_profile]:
    the failure [NoSuchEntity] of the one request becomes the value
    [None]. *)
Theorem get_instance_profile_missing_is_None cluster_name w c r0 e r1 :
  aws_client None "iam" None (remote w) = (Return c, r0) ->
  aws_getattr c "get_instance_profile" = Some Operation ->
  aws_request c "get_instance_profile"
    [("InstanceProfileName", PyStr (make_instance_profile_name cluster_name))]
    r0
  = (Raise (Client e), r1) ->
  Code e = "NoSuchEntity" ->
  RequestThrottlingBotoClient.throttled e = false ->
  exists w',
    get_instance_profile cluster_name w = Some (Return PyNone, w')
    /\ remote w' = r1
    /\ attempts (since w w') = 1
    /\ sleeps (since w w') = [].
Proof.
  intros Hs Hop Hcall Hcode Hthr.
  destruct (get_instance_profile_run cluster_name w c r0 _ r1 Hs Hop Hcall)
    as [w' [Hg [Hr [_ Hl]]]].
  { cbn [is_expired is_throttled]. rewrite Hthr.
    unfold SessionRefreshingBotoClient.expired. now rewrite Hcode. }
  exists w'. split; [| split; [exact Hr |]].
  - rewrite Hg. cbn [profile_outcome]. now rewrite Hcode.
  - rewrite (since_app _ _ _ Hl). split; reflexivity.
Qed.

(** Any other failure of the request that the proxies do not retry leaves
    [get_instance_profile] as it came. *)
Theorem get_instance_profile_failure_propagates cluster_name w c r0 e r1 :
  aws_client None "iam" None (remote w) = (Return c, r0) ->
  aws_getattr c "get_instance_profile" = Some Operation ->
  aws_request c "get_instance_profile"
    [("InstanceProfileName", PyStr (make_instance_profile_name cluster_name))]
    r0
  = (Raise (Client e), r1) ->
  Code e <> "NoSuchEntity" ->
  SessionRefreshingBotoClient.expired e = false ->
  RequestThrottlingBotoClient.throttled e = false ->
  exists w',
    get_instance_profile cluster_name w = Some (Raise (Client e), w')
    /\ remote w' = r1
    /\ attempts (since w w') = 1
    /\ sleeps (since w w') = [].
Proof.
  intros Hs Hop Hcall Hcode Hexp Hthr.
  destruct (get_instance_profile_run cluster_name w c r0 _ r1 Hs Hop Hcall)
    as [w' [Hg [Hr [_ Hl]]]].
  { cbn [is_expired is_throttled]. now rewrite Hthr, Hexp. }
  exists w'. split; [| split; [exact Hr |]].
  - rewrite Hg. cbn [profile_outcome].
    destruct (String.eqb_spec (Code e) "NoSuchEntity"); [contradiction |].
    reflexivity.
  - rewrite (since_app _ _ _ Hl). split; reflexivity.
Qed.

(** One invocation in a chain of statements: its value goes on, its
    exception ends the chain. *)
Ltac step_invoke Hi :=
  match goal with
  | |- context [bind (@invoke ?P ?h ?n ?a) ?k ?w0] =>
      let v := fresh "v" in
      let x := fresh "x" in
      let w1 := fresh "w" in
      destruct (@invoke P h n a w0) as [[[v | x] w1] |] eqn:Hi;
      [ rewrite (bind_return _ _ _ _ _ Hi); cbv beta
      | rewrite (bind_raise _ _ _ _ _ Hi); eauto
      | exfalso; exact (invoke_total _ _ _ Hi) ]
  end.

(** Where [time] does not resolve, [create_instance_profile] ends in an
    exception whatever the service answers. *)
Lemma create_instance_profile_unbound cluster_name w :
  bound "time" w = false ->
  exists x w', create_instance_profile cluster_name w = Some (Raise x, w').
Proof.
  intros Ht. unfold create_instance_profile.
  destruct (boto_client_frame "iam" None None w)
    as [res [w1 [Hb [Hg1 [_ Hres]]]]].
  destruct res as [h | x]; [| rewrite (bind_raise _ _ _ _ _ Hb); eauto].
  rewrite (bind_return _ _ _ _ _ Hb). destruct Hres as [-> _].
  step_invoke H1. step_invoke H2. step_invoke H3. step_invoke H4.
  apply invoke_frame in H1, H2, H3, H4.
  destruct H1 as [G1 _], H2 as [G2 _], H3 as [G3 _], H4 as [G4 _].
  unfold bind, time_sleep.
  match goal with
  | |- context [bound "time" ?w5] =>
      rewrite (bound_globals "time" w w5)
        by now rewrite G4, G3, G2, G1, Hg1
  end.
  rewrite Ht. cbn [raise]. eauto.
Qed.

(** On the module as written [create_instance_profile] never returns a
    profile: every run ends in an exception, since line 229 calls
    [time.sleep] and the module does not import [time]. *)
Theorem create_instance_profile_never_returns cluster_name w :
  globals w = aws_globals ->
  exists x w', create_instance_profile cluster_name w = Some (Raise x, w').
Proof.
  intros Hg. apply create_instance_profile_unbound.
  unfold bound. now rewrite Hg.
Qed.

(** When IAM serves the four requests, [create_instance_profile] has made
    them in the order profile, role, role policy, role into profile, each
    once; then it sleeps 30 seconds and returns the [InstanceProfile] of
    the first response where [time] resolves, and raises NameError where
    it does not, with profile and role left behind. *)
Theorem create_instance_profile_requests
    cluster_name w c r0 profile v2 v3 v4 r1 r2 r3 r4 :
  aws_client None "iam" None (remote w) = (Return c, r0) ->
  (forall name, aws_getattr c name = Some Operation) ->
  aws_request c "create_instance_profile"
    [("InstanceProfileName", PyStr (make_instance_profile_name cluster_name))]
    r0
  = (Return profile, r1) ->
  aws_request c "create_role"
    [("RoleName", PyStr ("role-" ++ cluster_name));
     ("AssumeRolePolicyDocument", PyStr AssumeRolePolicyDocument)]
    r1
  = (Return v2, r2) ->
  aws_request c "put_role_policy"
    [("RoleName", PyStr ("role-" ++ cluster_name));
     ("PolicyName", PyStr ("policy-" ++ cluster_name ++ "-datavolume"));
     ("PolicyDocument", PyStr policy_document)]
    r2
  = (Return v3, r3) ->
  aws_request c "add_role_to_instance_profile"
    [("InstanceProfileName", PyStr (make_instance_profile_name cluster_name));
     ("RoleName", PyStr ("role-" ++ cluster_name))]
    r3
  = (Return v4, r4) ->
  exists w',
    create_instance_profile cluster_name w
    = Some (if bound "time" w then getitem profile "InstanceProfile"
            else Raise (NameError "time"), w')
    /\ remote w' = r4
    /\ map fst (requests (since w w'))
       = ["create_instance_profile"; "create_role"; "put_role_policy";
          "add_role_to_instance_profile"]
    /\ sleeps (since w w') = if bound "time" w then [30%Q] else [].
Proof.
  intros Hs Hop H1 H2 H3 H4.
  pose proof (boto_client_run "iam" None None w c r0 Hs) as Hb.
  match type of Hb with _ = Some (_, ?w1) => set (w1' := w1) in * end.
  destruct (invoke_step w1' c "create_instance_profile" _ _ r1
              eq_refl (Hop _) H1 eq_refl) as [w2 [I1 [R1 [C1 [G1 L1]]]]].
  rewrite <- R1 in H2.
  destruct (invoke_step w2 c "create_role" _ _ r2 C1 (Hop _) H2 eq_refl)
    as [w3 [I2 [R2 [C2 [G2 L2]]]]].
  rewrite <- R2 in H3.
  destruct (invoke_step w3 c "put_role_policy" _ _ r3 C2 (Hop _) H3 eq_refl)
    as [w4 [I3 [R3 [C3 [G3 L3]]]]].
  rewrite <- R3 in H4.
  destruct (invoke_step w4 c "add_role_to_instance_profile" _ _ r4
              C3 (Hop _) H4 eq_refl) as [w5 [I4 [R4 [C4 [G4 L4]]]]].
  assert (Hl : exists evs,
             log w5 = (log w ++ evs)%list
             /\ map fst (requests evs)
                = ["create_instance_profile"; "create_role"; "put_role_policy";
                   "add_role_to_instance_profile"]
             /\ sleeps evs = []).
  { eexists. split.
    - rewrite L4, L3, L2, L1. subst w1'. cbn [log].
      rewrite <- !app_assoc. reflexivity.
    - split; reflexivity. }
  destruct Hl as [evs [Hl [Hreq Hsl]]].
  assert (Ht : bound "time" w5 = bound "time" w).
  { apply bound_globals. now rewrite G4, G3, G2, G1. }
  assert (Hrun : create_instance_profile cluster_name w
                 = (time_sleep 30 ;; lift (getitem profile "InstanceProfile")) w5).
  { unfold create_instance_profile.
    rewrite (bind_return _ _ _ _ _ Hb).
    rewrite (bind_return _ _ _ _ _ I1).
    rewrite (bind_return _ _ _ _ _ I2).
    rewrite (bind_return _ _ _ _ _ I3).
    rewrite (bind_return _ _ _ _ _ I4). reflexivity. }
  rewrite Hrun. unfold bind, time_sleep. rewrite Ht.
  destruct (bound "time" w).
  - exists (add_log w5 (Sleep 30)). split; [reflexivity |].
    split; [exact R4 |].
    rewrite (since_app w (add_log w5 (Sleep 30)) (evs ++ [Sleep 30])%list)
      by (cbn [add_log log]; rewrite Hl, <- app_assoc; reflexivity).
    rewrite requests_app, sleeps_app, map_app, Hreq, Hsl.
    split; reflexivity.
  - exists w5. split; [reflexivity |]. split; [exact R4 |].
    rewrite (since_app _ _ _ Hl). split; assumption.
Qed.

(** A profile that exists is returned by [ensure_instance_profile] as
    [get_instance_profile] found it: one session, one request, nothing
    created. *)
Theorem ensure_instance_profile_existing cluster_name w c r0 resp r1 p :
  aws_client None "iam" None (remote w) = (Return c, r0) ->
  aws_getattr c "get_instance_profile" = Some Operation ->
  aws_request c "get_instance_profile"
    [("InstanceProfileName", PyStr (make_instance_profile_name cluster_name))]
    r0
  = (Return resp, r1) ->
  getitem resp "InstanceProfile" = Return p ->
  p <> PyNone ->
  exists w',
    ensure_instance_profile cluster_name w = Some (Return p, w')
    /\ remote w' = r1
    /\ map fst (requests (since w w')) = ["get_instance_profile"]
    /\ sessions_of (since w w') = [(None, "iam", None)].
Proof.
  intros Hs Hop Hcall Hp Hnone.
  destruct (get_instance_profile_run cluster_name w c r0 _ r1 Hs Hop Hcall
              eq_refl) as [w' [Hg [Hr [_ Hl]]]].
  exists w'. split; [| split; [exact Hr |]].
  - unfold ensure_instance_profile. cbn [profile_outcome] in Hg.
    rewrite Hp in Hg. rewrite (bind_return _ _ _ _ _ Hg).
    now destruct p.
  - rewrite (since_app _ _ _ Hl). split; reflexivity.
Qed.

(** On the module as written [ensure_instance_profile] cannot make up for
    a missing profile: after [NoSuchEntity] it goes into
    [create_instance_profile] and ends in an exception. *)
Theorem ensure_instance_profile_cannot_create cluster_name w c r0 e r1 :
  globals w = aws_globals ->
  aws_client None "iam" None (remote w) = (Return c, r0) ->
  aws_getattr c "get_instance_profile" = Some Operation ->
  aws_request c "get_instance_profile"
    [("InstanceProfileName", PyStr (make_instance_profile_name cluster_name))]
    r0
  = (Raise (Client e), r1) ->
  Code e = "NoSuchEntity" ->
  RequestThrottlingBotoClient.throttled e = false ->
  exists x w', ensure_instance_profile cluster_name w = Some (Raise x, w').
Proof.
  intros Hglob Hs Hop Hcall Hcode Hthr.
  destruct (get_instance_profile_run cluster_name w c r0 _ r1 Hs Hop Hcall)
    as [w1 [Hg [_ [Hg1 _]]]].
  { cbn [is_expired is_throttled]. rewrite Hthr.
    unfold SessionRefreshingBotoClient.expired. now rewrite Hcode. }
  cbn [profile_outcome] in Hg. rewrite Hcode in Hg. cbn in Hg.
  unfold ensure_instance_profile. rewrite (bind_return _ _ _ _ _ Hg).
  apply create_instance_profile_unbound.
  unfold bound. now rewrite Hg1, Hglob.
Qed.

(** ** The alarm topics and the recovery alarm *)

Lemma sns_served_length topic email regions :
  forall arns r r',
    sns_served topic email regions arns r r' -> length arns = length regions.
Proof.
  induction regions as [| region rest IH]; intros [| arn arns] r r' Hrun;
    cbn [sns_served] in Hrun; try contradiction; [reflexivity |].
  destruct Hrun as [c [r1 [resp [r2 [_ [_ [_ [_ Hrest]]]]]]]].
  cbn [length]. f_equal.
  destruct (truthy email).
  - destruct Hrest as [resp' [r3 [_ [_ Hrest]]]]. now apply IH in Hrest.
  - now apply IH in Hrest.
Qed.

Lemma topics_by_region_keys regions :
  forall arns result k,
    length arns = length regions ->
    In k (map fst (topics_by_region regions arns result))
    <-> In k regions \/ In k (map fst result).
Proof.
  unfold topics_by_region.
  induction regions as [| region rest IH]; intros [| arn arns] result k Hlen;
    try discriminate; cbn [combine fold_left In fst snd].
  - tauto.
  - rewrite IH by (cbn [length] in Hlen; lia).
    rewrite dict_set_keys. intuition congruence.
Qed.

Lemma topics_by_region_NoDup regions :
  forall arns result,
    NoDup (map fst result) ->
    NoDup (map fst (topics_by_region regions arns result)).
Proof.
  unfold topics_by_region.
  induction regions as [| region rest IH]; intros [| arn arns] result Hnd;
    cbn [combine fold_left fst snd]; try exact Hnd.
  apply IH, dict_set_NoDup, Hnd.
Qed.

(** The loop of lines 122-128 against an SNS that serves it. *)
Lemma sns_topics_run topic email regions :
  forall arns w result r',
    sns_served topic email regions arns (remote w) r' ->
    exists w' evs,
      sns_topics regions topic email result w
      = Some (Return (topics_by_region regions arns result), w')
      /\ remote w' = r'
      /\ log w' = (log w ++ evs)%list
      /\ sessions_of evs = map (fun region => (None, "sns", Some region)) regions
      /\ requests evs = flat_map (topic_requests topic email) arns
      /\ sleeps evs = [].
Proof.
  induction regions as [| region rest IH]; intros [| arn arns] w result r' Hrun;
    cbn [sns_served] in Hrun; try contradiction.
  - exists w, []. cbn [sns_topics ret]. rewrite app_nil_r.
    repeat split. exact Hrun.
  - destruct Hrun as [c [r0 [resp [r1 [Hs [Hop1 [Hcall1 [Harn Hrest]]]]]]]].
    pose proof (boto_client_run "sns" (Some region) None w c r0 Hs) as Hb.
    match type of Hb with _ = Some (_, ?w1) => set (w1' := w1) in * end.
    destruct (invoke_step w1' c "create_topic" _ _ r1
                eq_refl Hop1 Hcall1 eq_refl)
      as [w2 [I1 [R1 [C1 [_ L1]]]]].
    cbn [sns_topics]. unfold topics_by_region, topic_requests.
    cbn [combine fold_left flat_map fst snd].
    destruct (truthy email) eqn:Hemail.
    + destruct Hrest as [resp2 [r2 [Hop2 [Hcall2 Hrest]]]].
      rewrite <- R1 in Hcall2.
      destruct (invoke_step w2 c "subscribe" _ _ r2 C1 Hop2 Hcall2 eq_refl)
        as [w3 [I2 [R2 [_ [_ L2]]]]].
      rewrite <- R2 in Hrest.
      destruct (IH arns w3 (dict_set result region arn) r' Hrest)
        as [w' [evs [Hrun [Hr' [Hl [Hse [Hrq Hsl]]]]]]].
      exists w'. eexists. split.
      { rewrite (bind_return _ _ _ _ _ Hb).
        rewrite (bind_return _ _ _ _ _ I1).
        unfold bind at 1, lift. rewrite Harn.
        unfold bind at 1. unfold bind at 1.
        rewrite I2. cbn [ret]. exact Hrun. }
      split; [exact Hr' |].
      split.
      { rewrite Hl, L2, L1. subst w1'. cbn [log].
        rewrite <- !app_assoc. reflexivity. }
      cbn [app sessions_of requests sleeps is_sleep map].
      unfold topic_requests in Hrq. rewrite Hemail in Hrq.
      rewrite Hse, Hrq, Hsl. repeat split.
    + destruct (IH arns w2 (dict_set result region arn) r')
        as [w' [evs [Hrun [Hr' [Hl [Hse [Hrq Hsl]]]]]]].
      { now rewrite R1. }
      exists w'. eexists. split.
      { rewrite (bind_return _ _ _ _ _ Hb).
        rewrite (bind_return _ _ _ _ _ I1).
        unfold bind at 1, lift. rewrite Harn.
        unfold bind at 1. cbn [ret]. exact Hrun. }
      split; [exact Hr' |].
      split.
      { rewrite Hl, L1. subst w1'. cbn [log].
        rewrite <- !app_assoc. reflexivity. }
      cbn [app sessions_of requests sleeps is_sleep map].
      unfold topic_requests in Hrq. rewrite Hemail in Hrq.
      rewrite Hse, Hrq, Hsl. repeat split.
Qed.

(** When SNS serves it, [setup_sns_topics_for_alarm] opens one SNS session
    per region, in the order of the regions; in each it creates the topic,
    under the given name or under the default name when none is given,
    and, if and only if there is an address, subscribes it to the topic
    just created; these are all its requests, and it never sleeps.  It
    returns the dictionary that gives every region the topic created for
    it: its keys are exactly the regions, each once. *)
Theorem setup_sns_topics_for_alarm_covers_regions
    regions arns topic_name email w r' :
  sns_served
    (if negb (truthy topic_name) then PyStr "planb-cassandra-system-event"
     else topic_name)
    email regions arns (remote w) r' ->
  exists result w',
    setup_sns_topics_for_alarm regions topic_name email w
    = Some (Return (PyDict result), w')
    /\ remote w' = r'
    /\ result = topics_by_region regions arns []
    /\ (forall region, In region (map fst result) <-> In region regions)
    /\ NoDup (map fst result)
    /\ sessions_of (since w w')
       = map (fun region => (None, "sns", Some region)) regions
    /\ requests (since w w')
       = flat_map
           (topic_requests
              (if negb (truthy topic_name)
               then PyStr "planb-cassandra-system-event" else topic_name)
              email)
           arns
    /\ sleeps (since w w') = [].
Proof.
  intros Hrun.
  pose proof (sns_served_length _ _ _ _ _ _ Hrun) as Hlen.
  destruct (sns_topics_run _ _ _ _ w [] _ Hrun)
    as [w' [evs [Hi [Hr' [Hl [Hse [Hrq Hsl]]]]]]].
  exists (topics_by_region regions arns []), w'. split.
  { unfold setup_sns_topics_for_alarm. cbv zeta.
    rewrite (bind_return _ _ _ _ _ Hi). reflexivity. }
  rewrite (since_app _ _ _ Hl).
  split; [exact Hr' |]. split; [reflexivity |].
  split.
  { intros region. rewrite (topics_by_region_keys _ _ _ _ Hlen).
    cbn [map In]. tauto. }
  split; [apply topics_by_region_NoDup; constructor |].
  split; [exact Hse |]. split; [exact Hrq | exact Hsl].
Qed.

(** [create_auto_recovery_alarm] opens one CloudWatch session in the
    region under the profile [planb_autorecovery] and puts one alarm, named
    after cluster and instance, whose first action is the recovery of the
    region; the SNS topic is the second action when there is one, and
    there is no other.  It returns [None] whatever CloudWatch answered. *)
Theorem create_auto_recovery_alarm_request
    region cluster_name instance_id alarm_sns_topic_arn w c r0 :
  aws_client (Some "planb_autorecovery") "cloudwatch" (Some region) (remote w)
  = (Return c, r0) ->
  aws_getattr c "put_metric_alarm" = Some Operation ->
  (forall kwargs, exists resp r1,
     aws_request c "put_metric_alarm" kwargs r0 = (Return resp, r1)) ->
  exists w' kwargs,
    create_auto_recovery_alarm region cluster_name instance_id
      alarm_sns_topic_arn w
    = Some (Return PyNone, w')
    /\ sessions_of (since w w')
       = [(Some "planb_autorecovery", "cloudwatch", Some region)]
    /\ requests (since w w') = [("put_metric_alarm", kwargs)]
    /\ lookup "AlarmName" kwargs
       = Some (PyStr (cluster_name ++ "-" ++ instance_id ++ "-auto-recover"))
    /\ lookup "AlarmActions" kwargs
       = Some (PyList
                 (PyStr ("arn:aws:automate:" ++ region ++ ":ec2:recover")
                    :: (if truthy alarm_sns_topic_arn
                        then [alarm_sns_topic_arn] else [])))
    /\ lookup "Dimensions" kwargs
       = Some (PyList [PyDict [("Name", PyStr "InstanceId");
                               ("Value", PyStr instance_id)]]).
Proof.
  intros Hs Hop Hput.
  pose proof (boto_client_run "cloudwatch" (Some region)
                (Some "planb_autorecovery") w c r0 Hs) as Hb.
  match type of Hb with _ = Some (_, ?w1) => set (w1' := w1) in * end.
  unfold create_auto_recovery_alarm. rewrite (bind_return _ _ _ _ _ Hb).
  cbv zeta.
  match goal with
  | |- context [bind (@invoke ?P ?h ?n ?a) ?k ?w0] =>
      destruct (Hput a) as [resp [r1 Hcall]];
      destruct (invoke_step w1' c n a (Return resp) r1
                  eq_refl Hop Hcall eq_refl) as [w2 [I1 [_ [_ [_ L1]]]]];
      exists w2, a
  end.
  split; [rewrite (bind_return _ _ _ _ _ I1); reflexivity |].
  rewrite (since_app w w2
             (Session (Some "planb_autorecovery") "cloudwatch" (Some region)
                :: _))
    by (rewrite L1; subst w1'; cbn [log]; rewrite <- app_assoc; reflexivity).
  repeat split.
  cbn [lookup String.eqb Ascii.eqb Bool.eqb].
  now destruct (truthy alarm_sns_topic_arn).
Qed.

End CallersProperties.

(** * The further properties on the scripted services *)

(** Two rate limits, then the answer, in a namespace that binds [time]. *)
Lemma throttled_then_success_with_time_witness :
  let w := ready ("time" :: aws_globals) [Throttling; Throttling; Return "r"] in
  exists w',
    @invoke scripted composed "describe_instances" [] w = Some (Return "r", w')
    /\ sleeps (since w w') = [0.5; 1.0]%Q
    /\ attempts (since w w') = 3.
Proof.
  cbv zeta.
  destruct (@throttled_then_success_with_time scripted
              (ready ("time" :: aws_globals) [Throttling; Throttling; Return "r"])
              1 "describe_instances" []
              [error "Throttling" "Rate exceeded";
               error "Throttling" "Rate exceeded"]
              {| pending := [Return "r"]; sessions := 1 |} "r"
              {| pending := []; sessions := 1 |}
              eq_refl eq_refl eq_refl)
    as [w' [evs [Hi [Hl [_ [Hs [_ [Ha _]]]]]]]].
  - exists {| pending := [Throttling; Return "r"]; sessions := 1 |}.
    repeat split.
    exists {| pending := [Return "r"]; sessions := 1 |}. repeat split.
  - unfold MAX_RETRIES. cbn [length]. lia.
  - reflexivity.
  - exists w'. split; [exact Hi |].
    unfold since. rewrite Hl, skipn_app, Nat.sub_diag, skipn_all.
    cbn [skipn app]. rewrite Hs, Ha. split; reflexivity.
Defined.

(** Eleven rate limits in a namespace that binds [time]. *)
Lemma throttled_exhausted_with_time_witness :
  let w := ready ("time" :: aws_globals) (repeat Throttling 11) in
  exists w',
    @invoke scripted composed "describe_instances" [] w = Some (Throttling, w')
    /\ length (sleeps (since w w')) = 10
    /\ attempts (since w w') = 11.
Proof.
  cbv zeta.
  destruct (@throttled_exhausted_with_time scripted
              (ready ("time" :: aws_globals) (repeat Throttling 11))
              1 "describe_instances" []
              (repeat (error "Throttling" "Rate exceeded") 10)
              {| pending := [Throttling]; sessions := 1 |}
              (error "Throttling" "Rate exceeded")
              {| pending := []; sessions := 1 |}
              eq_refl eq_refl eq_refl)
    as [w' [evs [Hi [Hl [_ [Hs [_ [Ha _]]]]]]]].
  - cbn [repeat throttled_run].
    repeat (eexists; split; [reflexivity |];
            split; [reflexivity |]; split; [reflexivity |]).
    reflexivity.
  - reflexivity.
  - reflexivity.
  - reflexivity.
  - reflexivity.
  - exists w'. split; [exact Hi |].
    unfold since. rewrite Hl, skipn_app, Nat.sub_diag, skipn_all.
    cbn [skipn app]. rewrite Hs, Ha. split; reflexivity.
Defined.


(** An expired session whose refresh finds no profile. *)
Lemma refresh_failure_propagates_witness :
  let w := connected aws_globals "ec2"
             [Raise (Client (error "RequestExpired" "Request has expired."))]
             [Other "ProfileNotFound"] in
  exists w',
    @invoke (@boto3 scripted_aws) composed "describe_instances" [] w
    = Some (Raise (Other "ProfileNotFound"), w')
    /\ _client w' = Some 1
    /\ attempts (since w w') = 1.
Proof.
  cbv zeta.
  destruct (@refresh_failure_propagates (@boto3 scripted_aws)
              (connected aws_globals "ec2"
                 [Raise (Client (error "RequestExpired" "Request has expired."))]
                 [Other "ProfileNotFound"])
              1 "describe_instances" []
              (error "RequestExpired" "Request has expired.")
              (Other "ProfileNotFound")
              {| answers := []; otherwise := PyDict [];
                 logins := [Other "ProfileNotFound"]; clients := 1 |}
              (serving [] 1)
              eq_refl eq_refl eq_refl eq_refl eq_refl eq_refl)
    as [w' [Hi [_ [Hc Hl]]]].
  exists w'. split; [exact Hi |]. split; [exact Hc |].
  unfold since. rewrite Hl, skipn_app, Nat.sub_diag, skipn_all. reflexivity.
Defined.

(** A name that is no attribute of the client, and a plain attribute
    called like an operation. *)
Lemma missing_operation_raises_witness :
  let w := ready aws_globals [Return "r"] in
  @invoke scripted composed "describe_volumes" [] w
  = Some (Raise (AttributeError "describe_volumes"), w)
  /\ @invoke scripted composed "meta" [] w = Some (Raise TypeError, w).
Proof.
  cbv zeta. split.
  - exact (proj1 (@missing_operation_raises scripted
                    (ready aws_globals [Return "r"]) 1 "describe_volumes" []
                    eq_refl eq_refl) eq_refl).
  - exact (proj2 (@missing_operation_raises scripted
                    (ready aws_globals [Return "r"]) 1 "meta" [] eq_refl
                    eq_refl)
                 "ClientMeta" eq_refl).
Defined.

(** Two clusters with one profile name are one cluster. *)
Lemma make_instance_profile_name_injective_witness :
  make_instance_profile_name "planb" = "profile-planb" /\ "planb" = "planb".
Proof.
  split; [reflexivity |].
  exact (make_instance_profile_name_injective "planb" "planb" eq_refl).
Defined.

(** Three reservations with two, no and one instance. *)
Lemma list_instances_flattens_witness :
  let w := connected aws_globals "ec2"
             [Return (PyDict [("Reservations",
                PyList [PyDict [("Instances", PyList [PyStr "i-1"; PyStr "i-2"])];
                        PyDict [("Instances", PyList [])];
                        PyDict [("Instances", PyList [PyStr "i-3"])]])])] [] in
  exists w',
    @list_instances scripted_aws composed [] w
    = Some (Return (PyList [PyStr "i-1"; PyStr "i-2"; PyStr "i-3"]), w').
Proof.
  cbv zeta.
  destruct (@list_instances_flattens scripted_aws
              (connected aws_globals "ec2"
                 [Return (PyDict [("Reservations",
                    PyList [PyDict [("Instances",
                                     PyList [PyStr "i-1"; PyStr "i-2"])];
                            PyDict [("Instances", PyList [])];
                            PyDict [("Instances", PyList [PyStr "i-3"])]])])] [])
              1 [] _ (serving [] 1) _
              [[PyStr "i-1"; PyStr "i-2"]; []; [PyStr "i-3"]]
              eq_refl eq_refl eq_refl eq_refl)
    as [w' [Hi _]].
  - repeat constructor.
  - exists w'. exact Hi.
Defined.

(** The second of three reservations has no instances entry. *)
Lemma list_instances_reservation_without_instances_witness :
  let w := connected aws_globals "ec2"
             [Return (PyDict [("Reservations",
                PyList [PyDict [("Instances", PyList [PyStr "i-1"])];
                        PyDict [("ReservationId", PyStr "r-2")];
                        PyDict [("Instances", PyList [PyStr "i-3"])]])])] [] in
  exists w',
    @list_instances scripted_aws composed [] w
    = Some (Raise (KeyError "Instances"), w').
Proof.
  cbv zeta.
  destruct (@list_instances_reservation_without_instances scripted_aws
              (connected aws_globals "ec2"
                 [Return (PyDict [("Reservations",
                    PyList [PyDict [("Instances", PyList [PyStr "i-1"])];
                            PyDict [("ReservationId", PyStr "r-2")];
                            PyDict [("Instances", PyList [PyStr "i-3"])]])])] [])
              1 [] _ (serving [] 1)
              [PyDict [("Instances", PyList [PyStr "i-1"])]]
              [[PyStr "i-1"]]
              [("ReservationId", PyStr "r-2")]
              [PyDict [("Instances", PyList [PyStr "i-3"])]]
              eq_refl eq_refl eq_refl eq_refl)
    as [w' [Hi _]].
  - repeat constructor.
  - reflexivity.
  - exists w'. exact Hi.
Defined.

(** The instances of the cluster planb. *)
Lemma list_cluster_instances_filters_by_name_witness :
  let w := connected aws_globals "ec2"
             [Return (PyDict [("Reservations",
                PyList [PyDict [("Instances", PyList [PyStr "i-1"])]])])] [] in
  exists w',
    @list_cluster_instances scripted_aws composed "planb" w
    = Some (Return (PyList [PyStr "i-1"]), w')
    /\ requests (since w w')
       = [("describe_instances",
           [("Filters",
             PyList [PyDict [("Name", PyStr "tag:Name");
                             ("Values", PyList [PyStr "planb"])]])])].
Proof.
  cbv zeta.
  destruct (@list_cluster_instances_filters_by_name scripted_aws
              (connected aws_globals "ec2"
                 [Return (PyDict [("Reservations",
                    PyList [PyDict [("Instances", PyList [PyStr "i-1"])]])])] [])
              1 "planb" _ (serving [] 1) _ [[PyStr "i-1"]]
              eq_refl eq_refl eq_refl eq_refl)
    as [w' [filters [Hi [Hr Hf]]]].
  - repeat constructor.
  - exists w'. split; [exact Hi |]. rewrite Hr, Hf. reflexivity.
Defined.

(** An instance with user data and one without. *)
Lemma fetch_user_data_value_witness :
  (let w := connected aws_globals "ec2"
              [Return (PyDict [("InstanceId", PyStr "i-1");
                               ("UserData",
                                PyDict [("Value", PyStr "I2Nsb3VkLWNvbmZpZw==")])])]
              [] in
   exists w',
     @fetch_user_data scripted_aws composed "i-1" w
     = Some (Return (PyStr "I2Nsb3VkLWNvbmZpZw=="), w'))
  /\ (let w := connected aws_globals "ec2"
                 [Return (PyDict [("InstanceId", PyStr "i-1");
                                  ("UserData", PyDict [])])] [] in
      exists w',
        @fetch_user_data scripted_aws composed "i-1" w
        = Some (Raise (KeyError "Value"), w')).
Proof.
  cbv zeta. split.
  - destruct (@fetch_user_data_value scripted_aws
                (connected aws_globals "ec2"
                   [Return (PyDict [("InstanceId", PyStr "i-1");
                                    ("UserData",
                                     PyDict [("Value",
                                              PyStr "I2Nsb3VkLWNvbmZpZw==")])])]
                   [])
                1 "i-1" _ (serving [] 1)
                [("Value", PyStr "I2Nsb3VkLWNvbmZpZw==")]
                eq_refl eq_refl eq_refl eq_refl)
      as [w' [Hi _]].
    exists w'. exact Hi.
  - destruct (@fetch_user_data_value scripted_aws
                (connected aws_globals "ec2"
                   [Return (PyDict [("InstanceId", PyStr "i-1");
                                    ("UserData", PyDict [])])] [])
                1 "i-1" _ (serving [] 1) []
                eq_refl eq_refl eq_refl eq_refl)
      as [w' [Hi _]].
    exists w'. exact Hi.
Defined.

(** No profile for the cluster planb. *)
Lemma get_instance_profile_missing_is_None_witness :
  let w := fresh aws_globals [Raise (Client NoSuchEntity)] in
  exists w',
    @get_instance_profile scripted_aws "planb" w = Some (Return PyNone, w')
    /\ attempts (since w w') = 1.
Proof.
  cbv zeta.
  destruct (@get_instance_profile_missing_is_None scripted_aws "planb"
              (fresh aws_globals [Raise (Client NoSuchEntity)])
              1 (serving [Raise (Client NoSuchEntity)] 1) NoSuchEntity
              (serving [] 1)
              eq_refl eq_refl eq_refl eq_refl eq_refl)
    as [w' [Hi [_ [Ha _]]]].
  exists w'. split; [exact Hi | exact Ha].
Defined.

(** IAM denies the request. *)
Lemma get_instance_profile_failure_propagates_witness :
  let w := fresh aws_globals [Raise (Client AccessDenied)] in
  exists w',
    @get_instance_profile scripted_aws "planb" w
    = Some (Raise (Client AccessDenied), w').
Proof.
  cbv zeta.
  destruct (@get_instance_profile_failure_propagates scripted_aws "planb"
              (fresh aws_globals [Raise (Client AccessDenied)])
              1 (serving [Raise (Client AccessDenied)] 1) AccessDenied
              (serving [] 1)
              eq_refl eq_refl eq_refl)
    as [w' [Hi _]].
  - discriminate.
  - reflexivity.
  - reflexivity.
  - exists w'. exact Hi.
Defined.

(** IAM serves everything, on the module as written. *)
Lemma create_instance_profile_never_returns_witness :
  exists x w',
    @create_instance_profile scripted_aws "planb"
      (fresh aws_globals
         [Return (PyDict [("InstanceProfile",
                           PyDict [("InstanceProfileName",
                                    PyStr "profile-planb")])])])
    = Some (Raise x, w').
Proof.
  exact (@create_instance_profile_never_returns scripted_aws "planb"
           (fresh aws_globals
              [Return (PyDict [("InstanceProfile",
                                PyDict [("InstanceProfileName",
                                         PyStr "profile-planb")])])])
           eq_refl).
Defined.

(** The same run in a namespace that binds [time]. *)
Lemma create_instance_profile_requests_witness :
  let w := fresh ("time" :: aws_globals)
             [Return (PyDict [("InstanceProfile",
                               PyDict [("InstanceProfileName",
                                        PyStr "profile-planb")])])] in
  exists w',
    @create_instance_profile scripted_aws "planb" w
    = Some (Return (PyDict [("InstanceProfileName", PyStr "profile-planb")]),
            w')
    /\ sleeps (since w w') = [30%Q].
Proof.
  cbv zeta.
  destruct (@create_instance_profile_requests scripted_aws "planb"
              (fresh ("time" :: aws_globals)
                 [Return (PyDict [("InstanceProfile",
                                   PyDict [("InstanceProfileName",
                                            PyStr "profile-planb")])])])
              1
              (serving [Return (PyDict [("InstanceProfile",
                                         PyDict [("InstanceProfileName",
                                                  PyStr "profile-planb")])])] 1)
              _ (PyDict []) (PyDict []) (PyDict [])
              (serving [] 1) (serving [] 1) (serving [] 1) (serving [] 1)
              eq_refl (fun _ => eq_refl) eq_refl eq_refl eq_refl eq_refl)
    as [w' [Hi [_ [_ Hs]]]].
  exists w'. split; [exact Hi | exact Hs].
Defined.

(** The profile of the cluster planb exists. *)
Lemma ensure_instance_profile_existing_witness :
  let w := fresh aws_globals
             [Return (PyDict [("InstanceProfile",
                               PyDict [("InstanceProfileName",
                                        PyStr "profile-planb")])])] in
  exists w',
    @ensure_instance_profile scripted_aws "planb" w
    = Some (Return (PyDict [("InstanceProfileName", PyStr "profile-planb")]),
            w')
    /\ map fst (requests (since w w')) = ["get_instance_profile"].
Proof.
  cbv zeta.
  destruct (@ensure_instance_profile_existing scripted_aws "planb"
              (fresh aws_globals
                 [Return (PyDict [("InstanceProfile",
                                   PyDict [("InstanceProfileName",
                                            PyStr "profile-planb")])])])
              1
              (serving [Return (PyDict [("InstanceProfile",
                                         PyDict [("InstanceProfileName",
                                                  PyStr "profile-planb")])])] 1)
              _ (serving [] 1)
              (PyDict [("InstanceProfileName", PyStr "profile-planb")])
              eq_refl eq_refl eq_refl eq_refl)
    as [w' [Hi [_ [Hr _]]]].
  - discriminate.
  - exists w'. split; [exact Hi | exact Hr].
Defined.

(** The profile of the cluster planb is missing, on the module as
    written. *)
Lemma ensure_instance_profile_cannot_create_witness :
  exists x w',
    @ensure_instance_profile scripted_aws "planb"
      (fresh aws_globals [Raise (Client NoSuchEntity)])
    = Some (Raise x, w').
Proof.
  exact (@ensure_instance_profile_cannot_create scripted_aws "planb"
           (fresh aws_globals [Raise (Client NoSuchEntity)])
           1 (serving [Raise (Client NoSuchEntity)] 1) NoSuchEntity
           (serving [] 1)
           eq_refl eq_refl eq_refl eq_refl eq_refl eq_refl).
Defined.

(** Two regions, no topic name and an address to subscribe. *)
Lemma setup_sns_topics_for_alarm_covers_regions_witness :
  let w := fresh aws_globals
             [Return (PyDict [("TopicArn", PyStr "arn:aws:sns:eu-west-1:planb")]);
              Return (PyDict [("SubscriptionArn", PyStr "pending confirmation")]);
              Return (PyDict [("TopicArn",
                               PyStr "arn:aws:sns:eu-central-1:planb")]);
              Return (PyDict [("SubscriptionArn", PyStr "pending confirmation")])]
  in
  exists w',
    @setup_sns_topics_for_alarm scripted_aws ["eu-west-1"; "eu-central-1"]
      PyNone (PyStr "ops@example.org") w
    = Some (Return
              (PyDict [("eu-west-1", PyStr "arn:aws:sns:eu-west-1:planb");
                       ("eu-central-1",
                        PyStr "arn:aws:sns:eu-central-1:planb")]),
            w')
    /\ map fst (requests (since w w'))
       = ["create_topic"; "subscribe"; "create_topic"; "subscribe"].
Proof.
  cbv zeta.
  destruct (@setup_sns_topics_for_alarm_covers_regions scripted_aws
              ["eu-west-1"; "eu-central-1"]
              [PyStr "arn:aws:sns:eu-west-1:planb";
               PyStr "arn:aws:sns:eu-central-1:planb"]
              PyNone (PyStr "ops@example.org")
              (fresh aws_globals
                 [Return (PyDict [("TopicArn",
                                   PyStr "arn:aws:sns:eu-west-1:planb")]);
                  Return (PyDict [("SubscriptionArn",
                                   PyStr "pending confirmation")]);
                  Return (PyDict [("TopicArn",
                                   PyStr "arn:aws:sns:eu-central-1:planb")]);
                  Return (PyDict [("SubscriptionArn",
                                   PyStr "pending confirmation")])])
              (serving [] 2))
    as [result [w' [Hi [_ [Hres [_ [_ [_ [Hrq _]]]]]]]]].
  - cbn [sns_served truthy negb String.eqb].
    eexists _, _, _, _. repeat (split; [reflexivity |]).
    eexists _, _. repeat (split; [reflexivity |]).
    eexists _, _, _, _. repeat (split; [reflexivity |]).
    eexists _, _. repeat (split; [reflexivity |]).
    reflexivity.
  - exists w'. split; [rewrite Hi, Hres; reflexivity |].
    rewrite Hrq. reflexivity.
Defined.

(** An alarm with a topic to notify. *)
Lemma create_auto_recovery_alarm_request_witness :
  let w := fresh aws_globals [] in
  exists w' kwargs,
    @create_auto_recovery_alarm scripted_aws "eu-west-1" "planb" "i-1"
      (PyStr "arn:aws:sns:planb") w
    = Some (Return PyNone, w')
    /\ requests (since w w') = [("put_metric_alarm", kwargs)]
    /\ lookup "AlarmActions" kwargs
       = Some (PyList [PyStr "arn:aws:automate:eu-west-1:ec2:recover";
                       PyStr "arn:aws:sns:planb"]).
Proof.
  cbv zeta.
  destruct (@create_auto_recovery_alarm_request scripted_aws
              "eu-west-1" "planb" "i-1" (PyStr "arn:aws:sns:planb")
              (fresh aws_globals []) 1 (serving [] 1) eq_refl eq_refl)
    as [w' [kwargs [Hi [_ [Hr [_ [Ha _]]]]]]].
  - intros kwargs. exists (PyDict []), (serving [] 1). reflexivity.
  - exists w', kwargs. split; [exact Hi |]. split; [exact Hr | exact Ha].
Defined.
